(** * go-wasm-nextjs-api-practice: the [/api/calculate] route and its Go module

    A shallow embedding of
    - [main.go]: the function [add] that the Go program registers in the
      JavaScript global namespace under the name [goAdd], and
    - [app/api/calculate/route.ts]: the lazy initialisation of the WebAssembly
      module ([initializeWasm]) and the request handler ([POST]),
    followed by the properties of the specification that concern them.

    JavaScript numbers are IEEE 754 binary64 values; they are represented by
    [spec_float] with precision 53 and maximal exponent 1024.  Go's [int] is
    64 bits wide on js/wasm and wraps around on overflow.  Requests are
    served one at a time; an operation that the route awaits may return,
    throw, or never settle. *)

From Stdlib Require Import ZArith List String Ascii Bool Lia.
From Stdlib Require Import Floats.SpecFloat.
From Equations Require Import Equations.
Import ListNotations.

Local Open Scope string_scope.
Local Open Scope Z_scope.

(* ===================================================================== *)
(** * JavaScript values *)
(* ===================================================================== *)

Module JS.

Definition prec : Z := 53.
Definition emax : Z := 1024.

(** A JavaScript number. *)
Definition number := spec_float.

(** The number nearest to an integer (round to nearest, ties to even). *)
Definition of_Z (z : Z) : number := binary_normalize prec emax z 0 false.

(** The number [m * 2^e]. *)
Definition of_scaled (m e : Z) : number := binary_normalize prec emax m e false.

(** [a + b] on numbers. *)
Definition plus (a b : number) : number := SFadd prec emax a b.

(** The values that cross the boundary between the handler, the request
    body and the Go module.  [Object] lists the own properties of a plain
    object, each key once.  A bigint is given by its integer, a symbol by
    its description; of a function passed as a value only the type is ever
    looked at, so it is given by a mere identity. *)
Inductive value :=
| Undefined
| Null
| Boolean (b : bool)
| Number (n : number)
| BigInt (z : Z)
| String (s : string)
| Symbol (description : string)
| FunctionObject (id : nat)
| Array (items : list value)
| Object (fields : list (string * value)).

(** The [typeof] operator. *)
Definition typeof (v : value) : string :=
  match v with
  | Undefined => "undefined"
  | Null => "object"
  | Boolean _ => "boolean"
  | Number _ => "number"
  | BigInt _ => "bigint"
  | String _ => "string"
  | Symbol _ => "symbol"
  | FunctionObject _ => "function"
  | Array _ => "object"
  | Object _ => "object"
  end.

(** [s.startsWith(p)]. *)
Definition startsWith (s p : string) : bool := String.prefix p s.

(** What a [throw] carries: an [Error] object with its message, or any
    other value, kept as the text [String(value)] gives. *)
Inductive thrown :=
| ErrorObject (message : string)
| NonError (text : string).

(** The outcome of evaluating or awaiting something: it returns a value,
    it throws, or it does neither, as a promise that never settles or a
    call that never returns. *)
Inductive completion (A : Type) :=
| Normal (a : A)
| Throw (e : thrown)
| Never.
Arguments Normal {A} a.
Arguments Throw {A} e.
Arguments Never {A}.

(** A callable: applied to its arguments it returns or throws, if it
    comes back at all. *)
Definition function := list value -> completion value.

(** A value that can be called. *)
Definition is_callable (v : value) : bool :=
  match v with
  | FunctionObject _ => true
  | _ => false
  end.

(** What a name of the global namespace is bound to: nothing, a function,
    given by what it does when it is called, or a value that is not a
    function. *)
Inductive binding :=
| Unbound
| BoundFunction (f : function)
| BoundValue (v : value) (not_callable : is_callable v = false).

Definition typeof_binding (b : binding) : string :=
  match b with
  | Unbound => "undefined"
  | BoundFunction _ => "function"
  | BoundValue v _ => typeof v
  end.

(** The part of the global namespace ([globalThis]) the route looks at:
    whether the constructor [Go] is defined, and what [goAdd] is bound to. *)
Record Globals := {
  Go : bool;
  goAdd : binding
}.

(** Own property [k] of a plain object, [Undefined] when absent. *)
Fixpoint own_property (k : string) (fields : list (string * value)) : value :=
  match fields with
  | [] => Undefined
  | (k', v) :: rest => if String.eqb k k' then v else own_property k rest
  end.

End JS.

(* ===================================================================== *)
(** * main.go *)
(* ===================================================================== *)

Module GoWasm.
Import JS.

(** Go code returns or panics. *)
Inductive outcome (A : Type) :=
| Done (a : A)
| Panic (msg : string).
Arguments Done {A} a.
Arguments Panic {A} msg.

Definition bind {A B} (o : outcome A) (k : A -> outcome B) : outcome B :=
  match o with
  | Done a => k a
  | Panic msg => Panic msg
  end.

(** ** The part of [syscall/js] that [main.go] uses *)

(** [js.Type]. *)
Inductive Type_ :=
| TypeUndefined | TypeNull | TypeBoolean | TypeNumber
| TypeString | TypeSymbol | TypeObject | TypeFunction.

Definition Type_eqb (a b : Type_) : bool :=
  match a, b with
  | TypeUndefined, TypeUndefined | TypeNull, TypeNull
  | TypeBoolean, TypeBoolean | TypeNumber, TypeNumber
  | TypeString, TypeString | TypeSymbol, TypeSymbol
  | TypeObject, TypeObject | TypeFunction, TypeFunction => true
  | _, _ => false
  end.

(** [Value.Type].  The bootstrap script hands a value to Go with a type
    flag for an object, a string, a symbol or a function; a bigint gets
    none, and [Type] panics on it. *)
Definition Value_Type (v : value) : outcome Type_ :=
  match v with
  | Undefined => Done TypeUndefined
  | Null => Done TypeNull
  | Boolean _ => Done TypeBoolean
  | Number _ => Done TypeNumber
  | BigInt _ => Panic "bad type flag"
  | String _ => Done TypeString
  | Symbol _ => Done TypeSymbol
  | FunctionObject _ => Done TypeFunction
  | Array _ => Done TypeObject
  | Object _ => Done TypeObject
  end.

(** Go's [int] on js/wasm: 64 bits, two's complement. *)
Definition min_int : Z := - 2 ^ 63.
Definition max_int : Z := 2 ^ 63 - 1.
Definition in_int (z : Z) : bool := (min_int <=? z) && (z <=? max_int).

(** The value of an [int] expression: the mathematical result wrapped. *)
Definition wrap (z : Z) : Z := (z + 2 ^ 63) mod 2 ^ 64 - 2 ^ 63.

Definition int_add (x y : Z) : Z := wrap (x + y).

(** The integer part of a number, rounding toward zero; [None] for the
    infinities and NaN. *)
Definition trunc (f : number) : option Z :=
  match f with
  | S754_zero _ => Some 0
  | S754_finite s m e => Some (cond_Zopp s (Z.shiftl (Zpos m) e))
  | S754_infinity _ => None
  | S754_nan => None
  end.

(** The conversion [int(f)] of a [float64].  The Go specification fixes it
    when the integer part fits [int] and leaves the other cases to the
    implementation; on js/wasm the conversion saturates (the instruction
    [i64.trunc_sat_f64_s]): a number beyond the range gives the bound on its
    side, and NaN gives 0. *)
Definition int_of_float64 (f : number) : Z :=
  match trunc f with
  | Some z => Z.max min_int (Z.min max_int z)
  | None =>
    match f with
    | S754_infinity false => max_int
    | S754_infinity true => min_int
    | _ => 0
    end
  end.

(** [Value.Int]: it panics unless the value is a number. *)
Definition Value_Int (v : value) : outcome Z :=
  match v with
  | Number f => Done (int_of_float64 f)
  | _ => Panic "syscall/js: call of Value.Int on a value that is not a number"
  end.

(** [js.ValueOf] at the two types [main.go] passes: [int] and [string]. *)
Definition ValueOf_int (n : Z) : value := Number (of_Z n).
Definition ValueOf_string (s : string) : value := String s.

(** [args[i]] on a slice. *)
Definition index (args : list value) (i : nat) : outcome value :=
  match nth_error args i with
  | Some v => Done v
  | None => Panic "runtime error: index out of range"
  end.

(** ** The program *)

Definition 安全にIntに変換 (val : value) : outcome (Z * bool) :=
  bind (Value_Type val) (fun type =>
  if negb (Type_eqb type TypeNumber) then Done (0, false)
  else
    bind (Value_Int val) (fun num =>
    Done (num, true))).

Definition add (this : value) (args : list value) : outcome value :=
  if negb (Nat.eqb (List.length args) 2) then
    Done (ValueOf_string "Invalid number of arguments")
  else
    bind (index args 0) (fun a0 =>
    bind (安全にIntに変換 a0) (fun '(arg1, ok1) =>
    if negb ok1 then Done (ValueOf_string "Argument 1 is not a valid integer")
    else
      bind (index args 1) (fun a1 =>
      bind (安全にIntに変換 a1) (fun '(arg2, ok2) =>
      if negb ok2 then Done (ValueOf_string "Argument 2 is not a valid integer")
      else Done (ValueOf_int (int_add arg1 arg2)))))).

(** [js.FuncOf(add)] as JavaScript sees it: called with the arguments as a
    slice, it returns what the Go function returned.  A panic is not
    recovered: it ends the Go program, no result is stored, and the call
    returns [undefined].  What calls after that do is not modelled; the
    handler never passes an argument on which [add] panics. *)
Definition FuncOf (fn : value -> list value -> outcome value) : function :=
  fun args =>
    match fn Undefined args with
    | Done v => Normal v
    | Panic _ => Normal Undefined
    end.

Definition registerCallbacks (g : Globals) : Globals :=
  {| Go := Go g; goAdd := BoundFunction (FuncOf add) |}.

End GoWasm.

(* ===================================================================== *)
(** * app/api/calculate/route.ts *)
(* ===================================================================== *)

Module Route.
Import JS.

(** ** State and environment *)

(** Handle of an instantiated module ([WebAssembly.Instance]). *)
Inductive Instance := WasmInstance (id : nat).

(** Handle of a Go runtime ([new Go()]). *)
Inductive GoRuntime := GoRuntimeObject (id : nat).

(** What the code does to the outside, in the order it happens. *)
Inductive Event :=
| ConsoleLog (msg : string)
| ConsoleError (args : list string)
| ReadFile (path : string)
| RunScript (source : string)
| NewGo
| Instantiate
| RunStarted (inst : Instance)
| TimerFired
| ClearInterval
| CallGoAdd (args : list value).

(** The module-level variables of the route, the global namespace, the
    milliseconds spent so far in periods of the interval timer (the other
    suspension points have no timeout and are not timed) and the effects so
    far, oldest first. *)
Record Machine := {
  goRuntimeInstance : option GoRuntime;
  wasmInstance : option Instance;
  g : Globals;
  waited : Z;
  trace : list Event
}.

(** What the Go program does in the background once [run] has started it:
    [main] runs up to the receive it blocks on, or the promise of [run]
    rejects. *)
Inductive BgEvent :=
| MainRegisters
| RunRejected (err : thrown).

(** The outside world during one initialisation attempt: the outcome of
    each operation the route awaits or calls (it returns, throws, or never
    settles: none of them has a time-out), and [background k], what the Go
    program did before the [k]-th firing of the interval timer (counted
    from 0). *)
Record Host := {
  wasm_exec_js : completion string;
  evaluate : string -> completion bool;
  new_Go : completion GoRuntime;
  main_go_wasm : completion (list Byte.byte);
  instantiate : list Byte.byte -> completion Instance;
  background : nat -> list BgEvent
}.

(** A request: what [request.json()] gives, if the body ever ends. *)
Record Request := {
  json : completion value
}.

(** [NextResponse.json(body, { status })]. *)
Record Response := {
  status : Z;
  body : value
}.

Definition NextResponse_json (data : value) (st : option Z) : Response :=
  {| status := match st with Some s => s | None => 200 end; body := data |}.

(** ** Computations: state, effects, exceptions and suspensions that never
    end *)

Definition M (A : Type) : Type := Machine -> completion A * Machine.

Definition ret {A} (a : A) : M A := fun m => (Normal a, m).

Definition bind {A B} (c : M A) (k : A -> M B) : M B :=
  fun m =>
    match c m with
    | (Normal a, m') => k a m'
    | (Throw e, m') => (Throw e, m')
    | (Never, m') => (Never, m')
    end.

Definition throw {A} (e : thrown) : M A := fun m => (Throw e, m).

Definition try_catch {A} (c : M A) (handler : thrown -> M A) : M A :=
  fun m =>
    match c m with
    | (Normal a, m') => (Normal a, m')
    | (Throw e, m') => handler e m'
    | (Never, m') => (Never, m')
    end.

(** Awaiting (or calling) something whose outcome the host decides. *)
Definition await {A} (c : completion A) : M A := fun m => (c, m).

Definition gets {A} (f : Machine -> A) : M A := fun m => (Normal (f m), m).

Definition modify (f : Machine -> Machine) : M unit := fun m => (Normal tt, f m).

Declare Scope route_scope.
Delimit Scope route_scope with route.
Notation "x <- c ;; k" := (bind c (fun x => k))
  (at level 61, c at next level, right associativity) : route_scope.
Notation "' p <- c ;; k" := (bind c (fun p => k))
  (at level 61, p pattern, c at next level, right associativity) : route_scope.
Notation "c ;; k" := (bind c (fun _ => k))
  (at level 61, right associativity) : route_scope.
Local Open Scope route_scope.

Definition emit (e : Event) : M unit :=
  modify (fun m =>
    {| goRuntimeInstance := goRuntimeInstance m; wasmInstance := wasmInstance m;
       g := g m; waited := waited m; trace := trace m ++ [e] |}).

Definition console_log (msg : string) : M unit := emit (ConsoleLog msg).
Definition console_error (args : list string) : M unit := emit (ConsoleError args).

Definition set_wasmInstance (v : option Instance) : M unit :=
  modify (fun m =>
    {| goRuntimeInstance := goRuntimeInstance m; wasmInstance := v;
       g := g m; waited := waited m; trace := trace m |}).

Definition set_goRuntimeInstance (v : option GoRuntime) : M unit :=
  modify (fun m =>
    {| goRuntimeInstance := v; wasmInstance := wasmInstance m;
       g := g m; waited := waited m; trace := trace m |}).

Definition set_globals (f : Globals -> Globals) : M unit :=
  modify (fun m =>
    {| goRuntimeInstance := goRuntimeInstance m; wasmInstance := wasmInstance m;
       g := f (g m); waited := waited m; trace := trace m |}).

Definition advance (ms : Z) : M unit :=
  modify (fun m =>
    {| goRuntimeInstance := goRuntimeInstance m; wasmInstance := wasmInstance m;
       g := g m; waited := waited m + ms; trace := trace m |}).

(** [error instanceof Error ? error.message : String(error)]. *)
Definition message_or_String (error : thrown) : string :=
  match error with
  | ErrorObject message => message
  | NonError text => text
  end.

(** [error instanceof Error ? error.message : fallback]. *)
Definition message_or (fallback : string) (error : thrown) : string :=
  match error with
  | ErrorObject message => message
  | NonError _ => fallback
  end.

(** ** The readiness wait of [initializeWasm] *)

Definition timeout : Z := 5000.
Definition checkIntervalMs : Z := 50.

(** The callback attached to the promise of [run] with [.catch]. *)
Definition on_run_rejected (err : thrown) : M unit :=
  let errorMessage := message_or_String err in
  console_error ["Go Wasmの実行時エラー:"; errorMessage] ;;
  set_wasmInstance None.

(** [main] of [main.go] up to the receive it blocks on: the line it
    prints, which the bootstrap script passes on to [console.log], and the
    registration. *)
Definition main : M unit :=
  console_log "Go WebAssembly Initialized (from Go)" ;;
  set_globals GoWasm.registerCallbacks.

Definition deliver (ev : BgEvent) : M unit :=
  match ev with
  | MainRegisters => main
  | RunRejected err => on_run_rejected err
  end.

Fixpoint deliver_all (evs : list BgEvent) : M unit :=
  match evs with
  | [] => ret tt
  | ev :: rest => deliver ev ;; deliver_all rest
  end.

(** How one run of the interval callback leaves the promise. *)
Inductive Settled :=
| Resolved
| Rejected (reason : thrown)
| Pending (elapsedTime : Z).

(** The callback given to [setInterval], with the value of [elapsedTime]
    it finds. *)
Definition interval_callback (elapsedTime : Z) : M Settled :=
  goAdd_now <- gets (fun m => goAdd (g m)) ;;
  if String.eqb (typeof_binding goAdd_now) "function" then
    emit ClearInterval ;;
    console_log "'goAdd'関数が利用可能です。" ;;
    ret Resolved
  else
    let elapsedTime := elapsedTime + checkIntervalMs in
    if timeout <=? elapsedTime then
      emit ClearInterval ;;
      console_error ["タイムアウト: 'goAdd'関数が利用可能になりませんでした。"] ;;
      set_wasmInstance None ;;
      ret (Rejected (ErrorObject "タイムアウト: 'goAdd'関数の準備待機中にエラーが発生しました。Wasmモジュールの初期化に失敗した可能性があります。"))
    else ret (Pending elapsedTime).

(** One period of the timer: the background makes its progress, the period
    elapses, the callback runs. *)
Definition timer_period (h : Host) (k : nat) (elapsedTime : Z) : M Settled :=
  deliver_all (background h k) ;;
  advance checkIntervalMs ;;
  emit TimerFired ;;
  interval_callback elapsedTime.

Definition inspect {A} (a : A) : {b : A | a = b} := exist _ a eq_refl.

(** Firings left before the callback gives up, the measure of the wait. *)
Definition remaining (elapsedTime : Z) : nat := Z.to_nat (timeout - elapsedTime).
Arguments remaining : simpl never.

(** [await new Promise(...)]: the timer fires until the callback settles the
    promise.  [k] counts the firings, [elapsedTime] is the callback's own
    variable. *)
Equations? wait_for_goAdd (h : Host) (k : nat) (elapsedTime : Z) (m : Machine)
  : completion unit * Machine by wf (remaining elapsedTime) lt :=
wait_for_goAdd h k elapsedTime m with inspect (timer_period h k elapsedTime m) := {
  | exist _ (Normal Resolved, m') _ := (Normal tt, m')
  | exist _ (Normal (Rejected reason), m') _ := (Throw reason, m')
  | exist _ (Normal (Pending elapsedTime'), m') _ := wait_for_goAdd h (S k) elapsedTime' m'
  | exist _ (Throw e, m') _ := (Throw e, m')
  | exist _ (Never, m') _ := (Never, m') }.
Proof.
  clear wait_for_goAdd.
  unfold timer_period, interval_callback, bind, gets, ret in e.
  destruct (deliver_all (background h k) m) as [[[]| |] ?]; try discriminate.
  cbn in e.
  destruct (String.eqb _ _); cbn in e; try discriminate.
  destruct (timeout <=? elapsedTime + checkIntervalMs) eqn:E; cbn in e; try discriminate.
  injection e as <- _.
  apply Z.leb_gt in E. unfold remaining, timeout, checkIntervalMs in *. lia.
Qed.

(** The effects between two states of one run. *)
Definition effects_of (m m' : Machine) : list Event :=
  skipn (List.length (trace m)) (trace m').

(** ** initializeWasm *)

Definition initializeWasm (h : Host) : M unit :=
  current <- gets wasmInstance ;;
  match current with
  | Some _ =>
    console_log "Wasmは既に初期化されています。スキップします。" ;;
    ret tt
  | None =>
    console_log "Wasmモジュールを初期化しています..." ;;
    try_catch
      (emit (ReadFile "./public/wasm_exec.js") ;;
       wasmExecContent <- await (wasm_exec_js h) ;;
       emit (RunScript wasmExecContent) ;;
       defines_Go <- await (evaluate h wasmExecContent) ;;
       set_globals (fun gl => {| Go := Go gl || defines_Go; goAdd := goAdd gl |}) ;;
       Go_now <- gets (fun m => Go (g m)) ;;
       if negb Go_now then
         throw (ErrorObject "GoコンストラクタがglobalThis上で見つかりません。wasm_exec.jsの実行に失敗した可能性があります。")
       else
         emit NewGo ;;
         runtime <- await (new_Go h) ;;
         set_goRuntimeInstance (Some runtime) ;;
         emit (ReadFile "./public/main.go.wasm") ;;
         wasmBytes <- await (main_go_wasm h) ;;
         emit Instantiate ;;
         instance <- await (instantiate h wasmBytes) ;;
         set_wasmInstance (Some instance) ;;
         console_log "Wasmモジュールがインスタント化されました。" ;;
         emit (RunStarted instance) ;;
         wait_for_goAdd h 0 0 ;;
         console_log "Go WasmがAPIルート用に初期化されました。")
      (fun error =>
         let errorMessage := message_or_String error in
         console_error ["Wasm初期化中のエラー:"; errorMessage] ;;
         set_wasmInstance None ;;
         throw (ErrorObject ("Wasm初期化失敗: " ++ errorMessage)))
  end.

(** ** POST *)

(** [!wasmInstance || typeof g.goAdd !== 'function']. *)
Definition not_ready (m : Machine) : bool :=
  match wasmInstance m with
  | None => true
  | Some _ => negb (String.eqb (typeof_binding (goAdd (g m))) "function")
  end.

(** [const { a, b } = body]: reading a property of [null] or [undefined]
    throws a [TypeError]; a primitive or an array has no property [a] or
    [b]. *)
Definition destructure_a_b (body : value) : M (value * value) :=
  match body with
  | Undefined =>
    throw (ErrorObject "Cannot destructure property 'a' of 'body' as it is undefined.")
  | Null =>
    throw (ErrorObject "Cannot destructure property 'a' of 'body' as it is null.")
  | Object fields => ret (own_property "a" fields, own_property "b" fields)
  | _ => ret (Undefined, Undefined)
  end.

(** [g.goAdd(a, b)]. *)
Definition call_goAdd (args : list value) : M value :=
  callee <- gets (fun m => goAdd (g m)) ;;
  match callee with
  | BoundFunction f =>
    emit (CallGoAdd args) ;;
    await (f args)
  | _ => throw (ErrorObject "g.goAdd is not a function")
  end.

(** The text of the validation error,
    [無効な入力です。"a"と"b"は数値である必要があります。], whose double quotes are
    put in by their character code. *)
Definition dquote : string := Strings.String.String (ascii_of_nat 34) EmptyString.

Definition invalid_input_message : string :=
  "無効な入力です。" ++ dquote ++ "a" ++ dquote ++ "と" ++ dquote ++ "b" ++ dquote
  ++ "は数値である必要があります。".

(** The handler is a single [try] block with its [catch]; its three parts
    are named here.  First, lines 127-131: initialise unless ready. *)
Definition ensure_ready (h : Host) : M unit :=
  cold <- gets not_ready ;;
  if cold then
    console_log "Wasmが未初期化または 'goAdd' が利用不可のため、初期化処理を実行します..." ;;
    initializeWasm h
  else ret tt.

(** Then, lines 133-164: the second readiness check, the body, the call. *)
Definition respond (request : Request) : M Response :=
  still_cold <- gets not_ready ;;
  if still_cold then
    console_error ["Wasmモジュールの準備ができていないか、'goAdd'関数が見つかりません（初期化試行後）。"] ;;
    ret (NextResponse_json
           (Object [("error", String "Wasmモジュールが利用できません。サーバー管理者にお問い合わせください。")])
           (Some 503))
  else
    body <- await (json request) ;;
    '(a, b) <- destructure_a_b body ;;
    if negb (String.eqb (typeof a) "number") || negb (String.eqb (typeof b) "number") then
      ret (NextResponse_json (Object [("error", String invalid_input_message)]) (Some 400))
    else
      result <- call_goAdd [a; b] ;;
      match result with
      | String text =>
        if startsWith text "Invalid" then
          ret (NextResponse_json (Object [("error", result)]) (Some 400))
        else ret (NextResponse_json (Object [("result", result)]) None)
      | _ => ret (NextResponse_json (Object [("result", result)]) None)
      end.

(** Last, lines 166-181: the [catch] clause. *)
Definition on_error (error : thrown) : M Response :=
  let errorMessage := message_or "不明なエラーが発生しました。" error in
  console_error ["/api/calculate でのエラー:"; errorMessage] ;;
  if startsWith errorMessage "Wasm初期化失敗:" then
    ret (NextResponse_json
           (Object [("error", String "Wasmモジュールの初期化に失敗しました。詳細はサーバーログをご確認ください。");
                    ("details", String errorMessage)])
           (Some 500))
  else
    ret (NextResponse_json
           (Object [("error", String "内部サーバーエラーが発生しました。処理中に予期せぬ問題が発生しました。");
                    ("details", String errorMessage)])
           (Some 500)).

Definition POST (h : Host) (request : Request) : M Response :=
  try_catch (ensure_ready h ;; respond request) on_error.

End Route.

(* ===================================================================== *)
(** * Notions used in the statements *)
(* ===================================================================== *)

Import JS GoWasm Route.
Local Open Scope route_scope.

(** ** Numbers *)

(** [is_integer f z]: the number [f] is exactly the integer [z]. *)
Definition is_integer (f : number) (z : Z) : Prop :=
  match f with
  | S754_zero _ => z = 0
  | S754_finite s m e =>
    if 0 <=? e then z = cond_Zopp s (Zpos m) * 2 ^ e
    else cond_Zopp s (Zpos m) = z * 2 ^ (- e)
  | S754_infinity _ => False
  | S754_nan => False
  end.

(** [integer_part f t]: [t] is the number [f] rounded toward zero, said with
    the magnitude [q] of [t] and the magnitude [m * 2^e] of [f]. *)
Definition integer_part (f : number) (t : Z) : Prop :=
  match f with
  | S754_zero _ => t = 0
  | S754_finite s m e =>
    exists q, t = cond_Zopp s q /\ 0 <= q /\
      if 0 <=? e then q = Zpos m * 2 ^ e
      else q * 2 ^ (- e) <= Zpos m < (q + 1) * 2 ^ (- e)
  | S754_infinity _ => False
  | S754_nan => False
  end.

(** The mantissa [p * 2^n], for [n] not negative. *)
Definition scale (p : positive) (n : Z) : positive :=
  match n with
  | Zpos n' => Pos.iter xO p n'
  | _ => p
  end.

(** The safe integers, [Number.MIN_SAFE_INTEGER] to
    [Number.MAX_SAFE_INTEGER]: each is a number, and the only integer that
    rounds to that number. *)
Definition safe_integer (z : Z) : Prop := - (2 ^ 53 - 1) <= z <= 2 ^ 53 - 1.

(** ** Effects *)

(** An effect other than a call of [goAdd]. *)
Definition no_call (ev : Event) : Prop :=
  match ev with
  | CallGoAdd _ => False
  | _ => True
  end.

(** A computation that only appends to the log and never calls [goAdd]. *)
Definition silent {A} (c : M A) : Prop :=
  forall m, exists evs, trace (snd (c m)) = (trace m ++ evs)%list /\ Forall no_call evs.

(** The message of the error the interval callback rejects with. *)
Definition timeout_message : string :=
  "タイムアウト: 'goAdd'関数の準備待機中にエラーが発生しました。Wasmモジュールの初期化に失敗した可能性があります。".

(** [typeof b === 'function']. *)
Definition is_function (b : binding) : bool := String.eqb (typeof_binding b) "function".

(** Every step before the wait succeeds: both files are read, the script
    runs and [Go] is defined afterwards, the runtime is constructed and the
    module instantiated. *)
Definition steps_succeed (h : Host) (m : Machine) (inst : Instance) : Prop :=
  exists content defines_Go runtime bytes,
    wasm_exec_js h = Normal content /\
    evaluate h content = Normal defines_Go /\
    Go (g m) || defines_Go = true /\
    new_Go h = Normal runtime /\
    main_go_wasm h = Normal bytes /\
    instantiate h bytes = Normal inst.

(** How [initializeWasm] ends, given how the wait ended. *)
Definition conclude (r : completion unit * Machine) : completion unit * Machine :=
  match r with
  | (Normal _, m1) => console_log "Go WasmがAPIルート用に初期化されました。" m1
  | (Throw error, m1) =>
    (console_error ["Wasm初期化中のエラー:"; message_or_String error] ;;
     set_wasmInstance None ;;
     throw (ErrorObject ("Wasm初期化失敗: " ++ message_or_String error))) m1
  | (Never, m1) => (Never, m1)
  end.

(** ** Scenarios *)

(** A process that has served no request yet. *)
Definition fresh : Machine :=
  {| goRuntimeInstance := None; wasmInstance := None;
     g := {| Go := false; goAdd := Unbound |};
     waited := 0; trace := [] |}.

(** A host whose files are in place, with the given background. *)
Definition installed (bg : nat -> list BgEvent) : Host :=
  {| wasm_exec_js := Normal "globalThis.Go = class { }";
     evaluate := fun _ => Normal true;
     new_Go := Normal (GoRuntimeObject 0);
     main_go_wasm := Normal [];
     instantiate := fun _ => Normal (WasmInstance 0);
     background := bg |}.

(** The Go program registers [goAdd] before the first firing. *)
Definition healthy : Host :=
  installed (fun k => match k with O => [MainRegisters] | S _ => [] end).

(** The Go program never registers anything. *)
Definition mute : Host := installed (fun _ => []).

(** The Go program registers [goAdd] and dies at once. *)
Definition crashing : Host :=
  installed (fun k =>
    match k with
    | O => [MainRegisters; RunRejected (ErrorObject "exit code 2")]
    | S _ => []
    end).

(** The module binary is not where it should be. *)
Definition missing_binary : Host :=
  {| wasm_exec_js := Normal "globalThis.Go = class { }";
     evaluate := fun _ => Normal true;
     new_Go := Normal (GoRuntimeObject 0);
     main_go_wasm := Throw (ErrorObject "ENOENT: no such file or directory");
     instantiate := fun _ => Normal (WasmInstance 0);
     background := fun _ => [] |}.

(** The read of the module binary never settles. *)
Definition stalled : Host :=
  {| wasm_exec_js := Normal "globalThis.Go = class { }";
     evaluate := fun _ => Normal true;
     new_Go := Normal (GoRuntimeObject 0);
     main_go_wasm := Never;
     instantiate := fun _ => Normal (WasmInstance 0);
     background := fun _ => [] |}.

(** A process in which the module is ready, [goAdd] being [f]. *)
Definition ready_with (f : function) : Machine :=
  {| goRuntimeInstance := Some (GoRuntimeObject 0);
     wasmInstance := Some (WasmInstance 0);
     g := {| Go := true; goAdd := BoundFunction f |};
     waited := 0; trace := [] |}.

(** A request whose body is the object with the two fields [a] and [b]. *)
Definition payload (a b : value) : Request :=
  {| json := Normal (Object [("a", a); ("b", b)]) |}.

(** A request whose body is not JSON. *)
Definition garbled : Request :=
  {| json := Throw (ErrorObject "Unexpected token h in JSON at position 1") |}.

(** The Go program registers [goAdd] only before the firing of index 100,
    the first one that no longer happens. *)
Definition late : Host :=
  installed (fun k => if Nat.eqb k 100 then [MainRegisters] else []).

(** A process whose instance was cleared while [goAdd] stayed bound to
    [f]. *)
Definition orphaned (f : function) : Machine :=
  {| goRuntimeInstance := Some (GoRuntimeObject 0);
     wasmInstance := None;
     g := {| Go := true; goAdd := BoundFunction f |};
     waited := 0; trace := [] |}.

(** A JSON value other than [null] that is no plain object: it has neither
    a field [a] nor a field [b]. *)
Definition has_no_fields (v : value) : bool :=
  match v with
  | Boolean _ => true
  | Number _ => true
  | String _ => true
  | Array _ => true
  | _ => false
  end.

(** The effects of serving a request once the module is ready: an error
    line on the console or a call of [goAdd]. *)
Definition serving (ev : Event) : Prop :=
  match ev with
  | ConsoleError _ => True
  | CallGoAdd _ => True
  | _ => False
  end.

(** An operation that comes back: it returns or it throws. *)
Definition settles {A} (c : completion A) : Prop := c <> Never.

(** A host on which every operation that [initializeWasm] awaits or calls
    before the wait comes back: the two reads, the run of the bootstrap
    script, the constructor and the instantiation.  None of them has a
    time-out in the route. *)
Definition responsive (h : Host) : Prop :=
  settles (wasm_exec_js h) /\
  (forall source, settles (evaluate h source)) /\
  settles (new_Go h) /\
  settles (main_go_wasm h) /\
  (forall bytes, settles (instantiate h bytes)).

(** The two texts of a 500 answer. *)
Definition initialisation_failed_text : string :=
  "Wasmモジュールの初期化に失敗しました。詳細はサーバーログをご確認ください。".
Definition internal_error_text : string :=
  "内部サーバーエラーが発生しました。処理中に予期せぬ問題が発生しました。".

(** The numbers 1.5 and 2.5. *)
Definition one_and_half : number := of_scaled 3 (-1).
Definition two_and_half : number := of_scaled 5 (-1).

(* ===================================================================== *)
(** * Numbers: conversions between [int] and [float64] *)
(* ===================================================================== *)

Lemma digits2_pos_size p : digits2_pos p = Pos.size p.
Proof. induction p; simpl; congruence. Qed.

Lemma iter_xO_mul p k : Zpos (Pos.iter xO p k) = Zpos p * 2 ^ Zpos k.
Proof.
  induction k using Pos.peano_ind.
  - simpl. lia.
  - rewrite Pos.iter_succ, Pos2Z.inj_xO, IHk, Pos2Z.inj_succ, Z.pow_succ_r by lia. lia.
Qed.

Lemma size_iter_xO p k : Pos.size (Pos.iter xO p k) = (Pos.size p + k)%positive.
Proof.
  induction k using Pos.peano_ind.
  - simpl. lia.
  - rewrite Pos.iter_succ. simpl. rewrite IHk. lia.
Qed.

Lemma size_bound p n : 0 <= n -> Zpos p < 2 ^ n -> Zpos (Pos.size p) <= n.
Proof.
  intros Hn Hp.
  pose proof (Pos.size_le p) as H.
  assert (H' : 2 ^ Zpos (Pos.size p) <= 2 * Zpos p).
  { rewrite <- Pos2Z.inj_pow. change (2 * Z.pos p) with (Z.pos p~0). lia. }
  destruct (Z.le_gt_cases (Zpos (Pos.size p)) n) as [|G]; [assumption|].
  assert (2 ^ (n + 1) <= 2 ^ Zpos (Pos.size p)) by (apply Z.pow_le_mono_r; lia).
  rewrite Z.pow_add_r in * by lia. lia.
Qed.

Lemma binary_round_aux_canonical s mz ez :
  Zpos (Pos.size mz) = 53 -> -1074 <= ez <= 971 ->
  binary_round_aux prec emax s (Zpos mz) ez loc_Exact = S754_finite s mz ez.
Proof.
  intros Hd He.
  unfold binary_round_aux, shr_fexp, Zdigits2, fexp, emin, prec, emax.
  rewrite digits2_pos_size, Hd.
  replace (Z.max (53 + ez - 53) (3 - 1024 - 53) - ez) with 0 by lia.
  cbn -[Z.leb Z.sub Z.max Z.add].
  rewrite digits2_pos_size, Hd.
  replace (Z.max (53 + ez - 53) (3 - 1024 - 53) - ez) with 0 by lia.
  cbn -[Z.leb Z.sub].
  destruct (Z.leb_spec ez (1024 - 53)); [reflexivity | lia].
Qed.

Lemma binary_round_small s p :
  Zpos p < 2 ^ 53 ->
  exists mz k, 0 <= k /\ Zpos mz = Zpos p * 2 ^ k /\
               binary_round prec emax s p 0 = S754_finite s mz (- k).
Proof.
  intros Hp.
  pose proof (size_bound p 53 ltac:(lia) Hp) as Hs.
  unfold binary_round, shl_align, fexp, emin, prec, emax.
  rewrite digits2_pos_size.
  replace (Z.max (Z.pos (Pos.size p) + 0 - 53) (3 - 1024 - 53) - 0)
    with (Z.pos (Pos.size p) - 53) by lia.
  destruct (Z.pos (Pos.size p) - 53) as [|d|d] eqn:E; try lia.
  - exists p, 0. split; [lia|]. split; [lia|].
    change (binary_round_aux 53 1024) with (binary_round_aux prec emax).
    rewrite binary_round_aux_canonical; [reflexivity | lia | lia].
  - exists (Pos.iter xO p d), (Zpos d). split; [lia|]. split; [apply iter_xO_mul|].
    replace (Z.max (Z.pos (Pos.size p) + 0 - 53) (3 - 1024 - 53)) with (- Zpos d) by lia.
    change (binary_round_aux 53 1024) with (binary_round_aux prec emax).
    rewrite binary_round_aux_canonical; [reflexivity | | lia].
    rewrite size_iter_xO. lia.
Qed.

(** ** Integer parts *)

Lemma cond_Zopp_mul s x y : cond_Zopp s x * y = cond_Zopp s (x * y).
Proof. destruct s; cbn; lia. Qed.

(** [trunc] computes the integer part. *)
Lemma trunc_integer_part f t : integer_part f t -> trunc f = Some t.
Proof.
  destruct f as [s|s| |s m e]; cbn [integer_part trunc is_integer]; try tauto.
  - intros ->. reflexivity.
  - intros (q & -> & Hq & H). do 2 f_equal. revert H.
    destruct (Z.leb_spec 0 e) as [He|He]; intros H.
    + rewrite Z.shiftl_mul_pow2 by assumption. lia.
    + rewrite <- (Z.opp_involutive e) at 1.
      rewrite Z.shiftl_opp_r, Z.shiftr_div_pow2 by lia.
      assert (0 < 2 ^ (- e)) by (apply Z.pow_pos_nonneg; lia).
      symmetry. apply Z.div_unique with (r := Zpos m - q * 2 ^ (- e)); lia.
Qed.

Lemma integer_part_trunc f t : trunc f = Some t -> integer_part f t.
Proof.
  destruct f as [s|s| |s m e]; cbn [integer_part trunc is_integer]; try discriminate.
  - intros [= <-]. reflexivity.
  - intros [= <-]. exists (Z.shiftl (Zpos m) e). split; [reflexivity|].
    split; [apply Z.shiftl_nonneg; lia|].
    destruct (Z.leb_spec 0 e) as [He|He].
    + apply Z.shiftl_mul_pow2. assumption.
    + rewrite <- (Z.opp_involutive e) at 1 3.
      rewrite Z.shiftl_opp_r, Z.shiftr_div_pow2 by lia.
      assert (0 < 2 ^ (- e)) by (apply Z.pow_pos_nonneg; lia).
      pose proof (Z.div_mod (Zpos m) (2 ^ (- e)) ltac:(lia)).
      pose proof (Z.mod_pos_bound (Zpos m) (2 ^ (- e)) ltac:(lia)).
      nia.
Qed.

Lemma is_integer_integer_part f z : is_integer f z -> integer_part f z.
Proof.
  destruct f as [s|s| |s m e]; cbn [integer_part trunc is_integer]; try tauto.
  assert (0 < 2 ^ (- e) \/ 0 <= e) as Hp.
  { destruct (Z.le_gt_cases 0 e); [right; assumption | left; apply Z.pow_pos_nonneg; lia]. }
  destruct (Z.leb_spec 0 e) as [He|He].
  - intros ->. exists (Zpos m * 2 ^ e). rewrite cond_Zopp_mul.
    split; [reflexivity|]. split; [|reflexivity].
    apply Z.mul_nonneg_nonneg; [lia | apply Z.pow_nonneg; lia].
  - destruct Hp as [Hp|Hp]; [|lia]. intros H.
    exists (Z.abs z). destruct s; cbn in H |- *.
    + assert (z <= 0) by nia. repeat split; try lia; nia.
    + assert (0 <= z) by nia. repeat split; try lia; nia.
Qed.

Lemma of_Z_is_integer z : - 2 ^ 53 < z < 2 ^ 53 -> is_integer (of_Z z) z.
Proof.
  intros Hz. unfold of_Z, binary_normalize.
  destruct z as [|p|p].
  - reflexivity.
  - destruct (binary_round_small false p) as (mz & k & Hk & Hm & ->); [lia|].
    cbn [is_integer cond_Zopp].
    destruct (Z.leb_spec 0 (- k)).
    + replace k with 0 in * by lia. cbn in *. lia.
    + rewrite Z.opp_involutive. exact Hm.
  - destruct (binary_round_small true p) as (mz & k & Hk & Hm & ->); [lia|].
    cbn [is_integer cond_Zopp].
    destruct (Z.leb_spec 0 (- k)).
    + replace k with 0 in * by lia. cbn in *. lia.
    + rewrite Z.opp_involutive. lia.
Qed.

Lemma wrap_in_int z : in_int z = true -> wrap z = z.
Proof.
  unfold in_int, min_int, max_int, wrap. intros H.
  apply andb_true_iff in H. destruct H as [H1 H2].
  apply Z.leb_le in H1, H2.
  rewrite Z.mod_small; lia.
Qed.

Lemma safe_in_int z : - 2 ^ 53 <= z <= 2 ^ 53 -> in_int z = true.
Proof.
  intros H. unfold in_int, min_int, max_int.
  apply andb_true_iff. split; apply Z.leb_le; lia.
Qed.

(** ** add *)

(** On two numbers whose integer parts fit [int], [add] answers the sum
    of the integer parts, wrapped, as a number. *)
(** A number whose integer part fits [int] is converted to that part. *)
Lemma int_of_float64_integer_part f t :
  integer_part f t -> in_int t = true -> int_of_float64 f = t.
Proof.
  intros P I. apply trunc_integer_part in P.
  unfold int_of_float64. rewrite P.
  unfold in_int in I. apply andb_true_iff in I. destruct I as [I1 I2].
  apply Z.leb_le in I1, I2. lia.
Qed.

Lemma add_numbers this fa fb ta tb :
  integer_part fa ta -> integer_part fb tb ->
  in_int ta = true -> in_int tb = true ->
  add this [Number fa; Number fb] = Done (Number (of_Z (wrap (ta + tb)))).
Proof.
  intros Pa Pb Ia Ib.
  unfold add, index, 安全にIntに変換, Value_Int. cbn.
  rewrite (int_of_float64_integer_part fa ta Pa Ia).
  rewrite (int_of_float64_integer_part fb tb Pb Ib). reflexivity.
Qed.


(* ===================================================================== *)
(** * The route: effects, the wait, initializeWasm, POST *)
(* ===================================================================== *)

(** ** Effects of a computation *)



Lemma effects_of_app m m' evs :
  trace m' = (trace m ++ evs)%list -> effects_of m m' = evs.
Proof.
  intros E. unfold effects_of. rewrite E.
  rewrite skipn_app, skipn_all, Nat.sub_diag. reflexivity.
Qed.

Lemma silent_ret A (a : A) : silent (ret a).
Proof. intros m. exists []. cbn. rewrite app_nil_r. auto. Qed.

Lemma silent_throw A e : silent (@throw A e).
Proof. intros m. exists []. cbn. rewrite app_nil_r. auto. Qed.

Lemma silent_await A (c : completion A) : silent (await c).
Proof. intros m. exists []. cbn. rewrite app_nil_r. auto. Qed.

Lemma silent_gets A (f : Machine -> A) : silent (gets f).
Proof. intros m. exists []. cbn. rewrite app_nil_r. auto. Qed.

Lemma silent_emit ev : no_call ev -> silent (emit ev).
Proof. intros H m. exists [ev]. cbn. auto. Qed.

Lemma silent_modify f : (forall m, trace (f m) = trace m) -> silent (modify f).
Proof. intros H m. exists []. cbn. rewrite H, app_nil_r. auto. Qed.

Lemma silent_bind A B (c : M A) (k : A -> M B) :
  silent c -> (forall a, silent (k a)) -> silent (bind c k).
Proof.
  intros Hc Hk m. unfold bind.
  destruct (Hc m) as (e1 & E1 & F1).
  destruct (c m) as [[a|x|] m1]; cbn in *.
  - destruct (Hk a m1) as (e2 & E2 & F2).
    exists (e1 ++ e2)%list. rewrite E2, E1, app_assoc. split; [reflexivity|].
    apply Forall_app; auto.
  - exists e1. auto.
  - exists e1. auto.
Qed.

Lemma silent_try_catch A (c : M A) (handler : thrown -> M A) :
  silent c -> (forall e, silent (handler e)) -> silent (try_catch c handler).
Proof.
  intros Hc Hk m. unfold try_catch.
  destruct (Hc m) as (e1 & E1 & F1).
  destruct (c m) as [[a|x|] m1]; cbn in *.
  - exists e1. auto.
  - destruct (Hk x m1) as (e2 & E2 & F2).
    exists (e1 ++ e2)%list. rewrite E2, E1, app_assoc. split; [reflexivity|].
    apply Forall_app; auto.
  - exists e1. auto.
Qed.

Create HintDb silent.
#[local] Hint Resolve silent_ret silent_throw silent_await silent_gets silent_bind
  silent_try_catch : silent.
#[local] Hint Extern 1 (silent (emit _)) => apply silent_emit; exact I : silent.
#[local] Hint Extern 1 (silent (console_log _)) => apply silent_emit; exact I : silent.
#[local] Hint Extern 1 (silent (console_error _)) => apply silent_emit; exact I : silent.
#[local] Hint Extern 1 (silent (modify _)) => apply silent_modify; reflexivity : silent.
#[local] Hint Extern 1 (silent (set_wasmInstance _)) => apply silent_modify; reflexivity : silent.
#[local] Hint Extern 1 (silent (set_goRuntimeInstance _)) => apply silent_modify; reflexivity : silent.
#[local] Hint Extern 1 (silent (set_globals _)) => apply silent_modify; reflexivity : silent.
#[local] Hint Extern 1 (silent (advance _)) => apply silent_modify; reflexivity : silent.
#[local] Hint Extern 2 (silent (if ?b then _ else _)) => destruct b : silent.
#[local] Hint Extern 2 (silent (match ?b with _ => _ end)) => destruct b : silent.

Lemma silent_deliver ev : silent (deliver ev).
Proof. destruct ev; cbn; unfold main, on_run_rejected; auto 10 with silent. Qed.
#[local] Hint Resolve silent_deliver : silent.

Lemma silent_deliver_all evs : silent (deliver_all evs).
Proof. induction evs; cbn; auto with silent. Qed.
#[local] Hint Resolve silent_deliver_all : silent.

Lemma silent_interval_callback e : silent (interval_callback e).
Proof. unfold interval_callback. auto 20 with silent. Qed.
#[local] Hint Resolve silent_interval_callback : silent.

Lemma silent_timer_period h k e : silent (timer_period h k e).
Proof. unfold timer_period. auto 20 with silent. Qed.
#[local] Hint Resolve silent_timer_period : silent.

(** ** The readiness wait, one period at a time *)

Lemma wait_for_goAdd_unfold h k e m :
  wait_for_goAdd h k e m =
  match timer_period h k e m with
  | (Normal Resolved, m') => (Normal tt, m')
  | (Normal (Rejected reason), m') => (Throw reason, m')
  | (Normal (Pending e'), m') => wait_for_goAdd h (S k) e' m'
  | (Throw x, m') => (Throw x, m')
  | (Never, m') => (Never, m')
  end.
Proof.
  funelim (wait_for_goAdd h k e m);
    match goal with H : timer_period _ _ _ _ = _ |- _ => rewrite H end; reflexivity.
Qed.

Lemma is_function_spec b : is_function b = true <-> exists f, b = BoundFunction f.
Proof.
  split.
  - destruct b as [|f|v N]; [discriminate | eauto | destruct v; discriminate].
  - intros [f ->]. reflexivity.
Qed.

(** What the background can do to the state between two firings. *)
Lemma deliver_all_state evs m :
  exists m',
    deliver_all evs m = (Normal tt, m') /\
    waited m' = waited m /\
    goRuntimeInstance m' = goRuntimeInstance m /\
    Go (g m') = Go (g m) /\
    (wasmInstance m' = None \/
     wasmInstance m' = wasmInstance m /\ forall err, ~ In (RunRejected err) evs) /\
    (goAdd (g m') = BoundFunction (FuncOf add) /\ In MainRegisters evs \/
     goAdd (g m') = goAdd (g m) /\ ~ In MainRegisters evs).
Proof.
  revert m. induction evs as [|ev evs IH]; intros m.
  - exists m. cbn. intuition.
  - cbn [deliver_all]. unfold bind.
    destruct ev as [|err]; cbn.
    + match goal with |- context [deliver_all evs ?m1] =>
        destruct (IH m1) as (m' & E & Hw & Hr & HG & HI & HA) end.
      exists m'. rewrite E. cbn in *. repeat split; auto.
      * destruct HI as [HI|[HI HN]]; [left; exact HI | right].
        split; [exact HI|]. intros err [C|C]; [discriminate | exact (HN err C)].
      * destruct HA as [[HA _]|[HA _]]; left; (split; [assumption | left; reflexivity]).
    + match goal with |- context [deliver_all evs ?m1] =>
        destruct (IH m1) as (m' & E & Hw & Hr & HG & HI & HA) end.
      exists m'. rewrite E. cbn in *. repeat split; auto.
      * left. destruct HI as [HI|[HI _]]; assumption.
      * destruct HA as [[HA HN]|[HA HN]]; [left; split; [exact HA | right; exact HN] | right].
        split; [exact HA|]. intros [C|C]; [discriminate | exact (HN C)].
Qed.

(** What one period of the timer does to the state, and how it ends. *)
Lemma timer_period_inv h k e m r m' :
  timer_period h k e m = (r, m') ->
  waited m' = waited m + checkIntervalMs /\
  goRuntimeInstance m' = goRuntimeInstance m /\
  Go (g m') = Go (g m) /\
  (wasmInstance m' = None \/
   wasmInstance m' = wasmInstance m /\ forall err, ~ In (RunRejected err) (background h k)) /\
  (goAdd (g m') = BoundFunction (FuncOf add) /\ In MainRegisters (background h k) \/
   goAdd (g m') = goAdd (g m) /\ ~ In MainRegisters (background h k)) /\
  match r with
  | Normal Resolved => is_function (goAdd (g m')) = true
  | Normal (Rejected reason) =>
      reason = ErrorObject timeout_message /\ is_function (goAdd (g m')) = false /\
      timeout <= e + checkIntervalMs /\ wasmInstance m' = None
  | Normal (Pending e') =>
      e' = e + checkIntervalMs /\ is_function (goAdd (g m')) = false /\ e' < timeout
  | Throw _ => False
  | Never => False
  end.
Proof.
  destruct (deliver_all_state (background h k) m) as (m0 & E & Hw & Hr & HG & HI & HA).
  unfold timer_period, bind. rewrite E.
  unfold advance, emit, modify. cbv beta iota.
  unfold interval_callback, bind, gets. cbv beta iota. cbn [g].
  fold (is_function (goAdd (g m0))).
  destruct (is_function (goAdd (g m0))) eqn:F.
  - intros [= <- <-]. cbn. rewrite Hw. auto 10.
  - destruct (Z.leb_spec timeout (e + checkIntervalMs)).
    + intros [= <- <-]. cbn. rewrite Hw. auto 10.
    + intros [= <- <-]. cbn. rewrite Hw. auto 10.
Qed.

(** Induction on the periods of the wait. *)
Lemma wait_for_goAdd_ind' (h : Host)
  (P : nat -> Z -> Machine -> completion unit * Machine -> Prop) :
  (forall k e m m', timer_period h k e m = (Normal Resolved, m') ->
     P k e m (Normal tt, m')) ->
  (forall k e m reason m', timer_period h k e m = (Normal (Rejected reason), m') ->
     P k e m (Throw reason, m')) ->
  (forall k e m e' m', timer_period h k e m = (Normal (Pending e'), m') ->
     P (S k) e' m' (wait_for_goAdd h (S k) e' m') ->
     P k e m (wait_for_goAdd h (S k) e' m')) ->
  (forall k e m x m', timer_period h k e m = (Throw x, m') ->
     P k e m (Throw x, m')) ->
  forall k e m, P k e m (wait_for_goAdd h k e m).
Proof.
  intros HR HJ HP HT k e m.
  funelim (wait_for_goAdd h k e m); eauto.
  - eapply HP; [eassumption | apply H; assumption].
  - exfalso.
    match goal with E : timer_period _ _ _ _ = (Never, _) |- _ =>
      destruct (timer_period_inv _ _ _ _ _ _ E) as (_ & _ & _ & _ & _ & [])
    end.
Qed.

(** ** Properties of the wait *)

(** The wait resolves only once [goAdd] is a function. *)
Lemma wait_resolved h k e m m' :
  wait_for_goAdd h k e m = (Normal tt, m') ->
  is_function (goAdd (g m')) = true.
Proof.
  revert m'.
  apply (wait_for_goAdd_ind' h
    (fun k e m r => forall m', r = (Normal tt, m') -> is_function (goAdd (g m')) = true));
    clear k e m; intros k e m.
  - intros m1 E m' [= <-]. apply timer_period_inv in E. tauto.
  - discriminate.
  - auto.
  - discriminate.
Qed.

(** The wait never sets [wasmInstance]: it leaves it alone or clears it, and
    it clears it when the promise of [run] rejects before one of its
    firings. *)
Lemma wait_instance h k e m :
  wasmInstance (snd (wait_for_goAdd h k e m)) = None \/
  wasmInstance (snd (wait_for_goAdd h k e m)) = wasmInstance m /\
  forall j err, (k <= j)%nat ->
    Z.of_nat (j - k) * checkIntervalMs < waited (snd (wait_for_goAdd h k e m)) - waited m ->
    ~ In (RunRejected err) (background h j).
Proof.
  apply (wait_for_goAdd_ind' h
    (fun k e m r =>
       wasmInstance (snd r) = None \/
       wasmInstance (snd r) = wasmInstance m /\
       forall j err, (k <= j)%nat ->
         Z.of_nat (j - k) * checkIntervalMs < waited (snd r) - waited m ->
         ~ In (RunRejected err) (background h j)));
    clear k e m; intros k e m.
  - intros m' E. apply timer_period_inv in E.
    destruct E as (W & _ & _ & [I|[I N]] & _); cbn [snd]; [tauto|].
    right. split; [exact I|]. intros j err Hj Hw.
    assert (j = k) as -> by (unfold checkIntervalMs in *; lia). apply N.
  - intros reason m' E. apply timer_period_inv in E. cbn [snd]. tauto.
  - intros e' m' E IH. apply timer_period_inv in E.
    destruct E as (W & _ & _ & [I|[I N]] & _).
    + left. destruct IH as [IH|[IH _]]; congruence.
    + destruct IH as [IH|[IH IN]]; [tauto|].
      right. split; [congruence|]. intros j err Hj Hw.
      destruct (Nat.eq_dec j k) as [->|Hne]; [apply N|].
      apply IN; [lia|].
      replace (Z.of_nat (j - S k)) with (Z.of_nat (j - k) - 1) by lia.
      unfold checkIntervalMs in *. lia.
  - intros x m' E. apply timer_period_inv in E. tauto.
Qed.

(** The wait is bounded: it ends within [timeout] plus one period. *)
Lemma wait_bounded h k e m :
  0 <= waited (snd (wait_for_goAdd h k e m)) - waited m
    <= Z.max checkIntervalMs (timeout - e + checkIntervalMs).
Proof.
  apply (wait_for_goAdd_ind' h
    (fun k e m r =>
       0 <= waited (snd r) - waited m
         <= Z.max checkIntervalMs (timeout - e + checkIntervalMs)));
    clear k e m; intros k e m.
  - intros m' E. apply timer_period_inv in E. cbn [snd].
    unfold checkIntervalMs in *. lia.
  - intros reason m' E. apply timer_period_inv in E. cbn [snd].
    unfold checkIntervalMs in *. lia.
  - intros e' m' E IH. apply timer_period_inv in E.
    destruct E as (W & _ & _ & _ & _ & -> & _ & L).
    unfold checkIntervalMs in *. lia.
  - intros x m' E. apply timer_period_inv in E. tauto.
Qed.

(** If [goAdd] never becomes a function, the wait ends by the timeout. *)
Lemma wait_times_out h k e m :
  is_function (goAdd (g m)) = false ->
  (forall j, ~ In MainRegisters (background h j)) ->
  exists m',
    wait_for_goAdd h k e m = (Throw (ErrorObject timeout_message), m') /\
    wasmInstance m' = None /\
    (e < timeout -> (timeout - e) mod checkIntervalMs = 0 ->
     waited m' - waited m = timeout - e).
Proof.
  intros F N. revert F.
  apply (wait_for_goAdd_ind' h
    (fun k e m r =>
       is_function (goAdd (g m)) = false ->
       exists m',
         r = (Throw (ErrorObject timeout_message), m') /\
         wasmInstance m' = None /\
         (e < timeout -> (timeout - e) mod checkIntervalMs = 0 ->
          waited m' - waited m = timeout - e)));
    clear k e m; intros k e m.
  - intros m' E F. apply timer_period_inv in E.
    destruct E as (_ & _ & _ & _ & [[_ A]|[A _]] & R).
    + exfalso. exact (N k A).
    + rewrite A, F in R. discriminate.
  - intros reason m' E F. apply timer_period_inv in E.
    destruct E as (W & _ & _ & _ & _ & -> & _ & L & I).
    exists m'. repeat split; [exact I|]. intros Lt Hmod.
    apply Z.mod_divide in Hmod; [|discriminate]. destruct Hmod as [q Hq].
    unfold checkIntervalMs in *. lia.
  - intros e' m' E IH F. apply timer_period_inv in E.
    destruct E as (W & _ & _ & _ & _ & -> & F' & L).
    destruct (IH F') as (m'' & -> & I & T).
    exists m''. repeat split; [exact I|]. intros Lt Hmod.
    rewrite <- (Z.mod_add _ (-1)) in Hmod by discriminate.
    replace (timeout - e + -1 * checkIntervalMs) with (timeout - (e + checkIntervalMs)) in Hmod by lia.
    specialize (T L Hmod). lia.
  - intros x m' E. apply timer_period_inv in E. tauto.
Qed.

Lemma silent_wait h k e : silent (wait_for_goAdd h k e).
Proof.
  intros m.
  apply (wait_for_goAdd_ind' h
    (fun k e m r => exists evs, trace (snd r) = (trace m ++ evs)%list /\ Forall no_call evs));
    clear k e m; intros k e m.
  - intros m' E. destruct (silent_timer_period h k e m) as (evs & T & F).
    rewrite E in T. eauto.
  - intros reason m' E. destruct (silent_timer_period h k e m) as (evs & T & F).
    rewrite E in T. eauto.
  - intros e' m' E (evs' & T' & F'). destruct (silent_timer_period h k e m) as (evs & T & F).
    rewrite E in T. cbn [snd] in T. exists (evs ++ evs')%list.
    rewrite T', T, app_assoc. split; [reflexivity | apply Forall_app; auto].
  - intros x m' E. destruct (silent_timer_period h k e m) as (evs & T & F).
    rewrite E in T. eauto.
Qed.
#[local] Hint Resolve silent_wait : silent.

Lemma silent_initializeWasm h : silent (initializeWasm h).
Proof. unfold initializeWasm. auto 40 with silent. Qed.

(** ** initializeWasm *)



(** Symbolic execution of straight-line code. *)
Ltac run :=
  cbn [bind ret throw try_catch await gets modify emit console_log console_error
       set_wasmInstance set_goRuntimeInstance set_globals advance
       goRuntimeInstance wasmInstance g waited trace Go goAdd fst snd negb].

Lemma initializeWasm_warm h m inst :
  wasmInstance m = Some inst ->
  initializeWasm h m = console_log "Wasmは既に初期化されています。スキップします。" m.
Proof.
  intros W. unfold initializeWasm. run. rewrite W. run. reflexivity.
Qed.

Lemma initializeWasm_throws h m e m' :
  initializeWasm h m = (Throw e, m') -> wasmInstance m' = None.
Proof.
  unfold initializeWasm. run.
  destruct (wasmInstance m); run; [discriminate|]. unfold try_catch.
  match goal with |- context [match ?c with _ => _ end] => destruct c as [[[]|x|] m1] end.
  - discriminate.
  - intros [= _ <-]. reflexivity.
  - discriminate.
Qed.

Lemma initializeWasm_cold h m :
  wasmInstance m = None ->
  (exists inst m0,
     steps_succeed h m inst /\
     wasmInstance m0 = Some inst /\ goAdd (g m0) = goAdd (g m) /\ waited m0 = waited m /\
     initializeWasm h m = conclude (wait_for_goAdd h 0 0 m0))
  \/
  (exists e m',
     (forall inst, ~ steps_succeed h m inst) /\
     initializeWasm h m = (Throw e, m') /\ wasmInstance m' = None /\ waited m' = waited m)
  \/
  (exists m',
     (forall inst, ~ steps_succeed h m inst) /\
     initializeWasm h m = (Never, m') /\ wasmInstance m' = None /\ waited m' = waited m).
Proof.
  intros W. unfold steps_succeed, initializeWasm. run. rewrite W. run.
  unfold try_catch. run.
  destruct (wasm_exec_js h) as [content|x|] eqn:E1; run.
  2:{ right. left. eexists _, _. split; [|split; [reflexivity|split; reflexivity]].
      intros inst (? & ? & ? & ? & C & _). discriminate. }
  2:{ right. right. eexists. split; [|split; [reflexivity|split; [exact W|reflexivity]]].
      intros inst (? & ? & ? & ? & C & _). discriminate. }
  destruct (evaluate h content) as [d|x|] eqn:E2; run.
  2:{ right. left. eexists _, _. split; [|split; [reflexivity|split; reflexivity]].
      intros inst (? & ? & ? & ? & [= <-] & C & _). congruence. }
  2:{ right. right. eexists. split; [|split; [reflexivity|split; [exact W|reflexivity]]].
      intros inst (? & ? & ? & ? & [= <-] & C & _). congruence. }
  destruct (Go (g m) || d) eqn:E3; run.
  2:{ right. left. eexists _, _. split; [|split; [reflexivity|split; reflexivity]].
      intros inst (? & ? & ? & ? & [= <-] & C & C' & _). congruence. }
  destruct (new_Go h) as [rt|x|] eqn:E4; run.
  2:{ right. left. eexists _, _. split; [|split; [reflexivity|split; reflexivity]].
      intros inst (? & ? & ? & ? & _ & _ & _ & C & _). discriminate. }
  2:{ right. right. eexists. split; [|split; [reflexivity|split; [exact W|reflexivity]]].
      intros inst (? & ? & ? & ? & _ & _ & _ & C & _). discriminate. }
  destruct (main_go_wasm h) as [bytes|x|] eqn:E5; run.
  2:{ right. left. eexists _, _. split; [|split; [reflexivity|split; reflexivity]].
      intros inst (? & ? & ? & ? & _ & _ & _ & _ & C & _). discriminate. }
  2:{ right. right. eexists. split; [|split; [reflexivity|split; [exact W|reflexivity]]].
      intros inst (? & ? & ? & ? & _ & _ & _ & _ & C & _). discriminate. }
  destruct (instantiate h bytes) as [inst|x|] eqn:E6; run.
  2:{ right. left. eexists _, _. split; [|split; [reflexivity|split; reflexivity]].
      intros inst (? & ? & ? & ? & _ & _ & _ & _ & [= <-] & C). congruence. }
  2:{ right. right. eexists. split; [|split; [reflexivity|split; [exact W|reflexivity]]].
      intros inst (? & ? & ? & ? & _ & _ & _ & _ & [= <-] & C). congruence. }
  left. exists inst.
  match goal with |- context [bind (wait_for_goAdd h 0%nat 0) ?k ?s] =>
    exists s; unfold bind at 1
  end.
  split; [exists content, d, rt, bytes; auto 10|].
  repeat (split; [reflexivity|]).
  unfold conclude.
  match goal with |- context [wait_for_goAdd h 0%nat 0 ?s] =>
    destruct (wait_for_goAdd h 0 0 s) as [[[]|x|] m1]
  end; reflexivity.
Qed.

(** The wait always ends: by resolving or by rejecting. *)
Lemma wait_settles h k e m : fst (wait_for_goAdd h k e m) <> Never.
Proof.
  apply (wait_for_goAdd_ind' h (fun k e m r => fst r <> Never));
    clear k e m; intros k e m; try discriminate.
  auto.
Qed.

Lemma conclude_normal m1 :
  exists m', conclude (Normal tt, m1) = (Normal tt, m') /\
    wasmInstance m' = wasmInstance m1 /\ g m' = g m1 /\ waited m' = waited m1.
Proof. eexists. split; [reflexivity|]. cbn. auto. Qed.

Lemma conclude_throw e m1 :
  exists m',
    conclude (Throw e, m1)
    = (Throw (ErrorObject ("Wasm初期化失敗: " ++ message_or_String e)), m') /\
    wasmInstance m' = None /\ g m' = g m1 /\ waited m' = waited m1.
Proof. eexists. split; [reflexivity|]. cbn. auto. Qed.

(** An attempt that starts without an instance and returns normally has seen
    every step succeed, and [goAdd] is a function when it returns. *)
Lemma initializeWasm_normal h m m' :
  wasmInstance m = None ->
  initializeWasm h m = (Normal tt, m') ->
  is_function (goAdd (g m')) = true /\
  exists inst, steps_succeed h m inst /\
               (wasmInstance m' = Some inst \/ wasmInstance m' = None).
Proof.
  intros W E.
  destruct (initializeWasm_cold h m W)
    as [(inst & m0 & S & I0 & _ & _ & E') | [(e & m1 & _ & E' & _) | (m1 & _ & E' & _)]];
    [|congruence|congruence].
  rewrite E' in E.
  destruct (wait_for_goAdd h 0 0 m0) as [[[]|x|] m1] eqn:Wt.
  - destruct (conclude_normal m1) as (m2 & C & I & G & _).
    rewrite C in E. injection E as <-.
    split; [rewrite G; eapply wait_resolved; eassumption|].
    exists inst. split; [assumption|].
    pose proof (wait_instance h 0 0 m0) as HI. rewrite Wt in HI. cbn [snd] in HI.
    rewrite I. rewrite I0 in HI. tauto.
  - destruct (conclude_throw x m1) as (m2 & C & _). rewrite C in E. discriminate.
  - discriminate.
Qed.

(** The promise of [run] rejecting while the attempt waits clears the
    instance, however the attempt ends. *)
Lemma initializeWasm_rejection h m j err :
  wasmInstance m = None ->
  In (RunRejected err) (background h j) ->
  Z.of_nat j * checkIntervalMs < waited (snd (initializeWasm h m)) - waited m ->
  wasmInstance (snd (initializeWasm h m)) = None.
Proof.
  intros W R.
  destruct (initializeWasm_cold h m W)
    as [(inst & m0 & S & I0 & _ & W0 & E') | [(e & m1 & _ & E' & I & _) | (m1 & _ & E' & I & _)]];
    rewrite E'; [|intros _; exact I|intros _; exact I].
  pose proof (wait_instance h 0 0 m0) as HI.
  pose proof (wait_settles h 0 0 m0) as HS.
  destruct (wait_for_goAdd h 0 0 m0) as [[[]|x|] m1] eqn:Wt; cbn [fst snd] in HI, HS.
  - destruct (conclude_normal m1) as (m2 & -> & I & _ & W2). cbn [snd].
    rewrite I, W2, <- W0. intros L.
    destruct HI as [HI|[_ HI]]; [exact HI|].
    exfalso. apply (HI j err); [lia | rewrite Nat.sub_0_r; exact L | exact R].
  - destruct (conclude_throw x m1) as (m2 & -> & I & _). intros _. exact I.
  - congruence.
Qed.

(** Whatever happens, an attempt spends at most [timeout] plus one period
    waiting. *)
Lemma initializeWasm_bounded h m :
  0 <= waited (snd (initializeWasm h m)) - waited m <= timeout + checkIntervalMs.
Proof.
  destruct (wasmInstance m) as [inst|] eqn:W.
  - rewrite (initializeWasm_warm h m inst W). cbn. unfold timeout, checkIntervalMs. lia.
  - destruct (initializeWasm_cold h m W)
      as [(inst & m0 & S & I0 & _ & W0 & E')
         | [(e & m1 & _ & E' & _ & W1) | (m1 & _ & E' & _ & W1)]];
      rewrite E';
      [|cbn [snd]; rewrite W1; unfold timeout, checkIntervalMs; lia
       |cbn [snd]; rewrite W1; unfold timeout, checkIntervalMs; lia].
    pose proof (wait_bounded h 0 0 m0) as B.
    destruct (wait_for_goAdd h 0 0 m0) as [[[]|x|] m1]; cbn [snd] in B.
    + destruct (conclude_normal m1) as (m2 & -> & _ & _ & W2). cbn [snd].
      rewrite W2, <- W0. unfold timeout, checkIntervalMs in *. lia.
    + destruct (conclude_throw x m1) as (m2 & -> & _ & _ & W2). cbn [snd].
      rewrite W2, <- W0. unfold timeout, checkIntervalMs in *. lia.
    + cbn [conclude snd]. rewrite <- W0. unfold timeout, checkIntervalMs in *. lia.
Qed.

(** If every step succeeds but [goAdd] never becomes a function, the attempt
    fails by the timeout, after [timeout] milliseconds of waiting. *)
Lemma initializeWasm_times_out h m inst :
  wasmInstance m = None ->
  steps_succeed h m inst ->
  is_function (goAdd (g m)) = false ->
  (forall j, ~ In MainRegisters (background h j)) ->
  exists m',
    initializeWasm h m
    = (Throw (ErrorObject ("Wasm初期化失敗: " ++ timeout_message)), m') /\
    wasmInstance m' = None /\
    waited m' - waited m = timeout.
Proof.
  intros W S F N.
  destruct (initializeWasm_cold h m W)
    as [(inst' & m0 & _ & _ & G0 & W0 & E') | [(e & m1 & C & _) | (m1 & C & _)]];
    [|exfalso; exact (C inst S)|exfalso; exact (C inst S)].
  rewrite <- G0 in F.
  destruct (wait_times_out h 0 0 m0 F N) as (m1 & Wt & I & T).
  rewrite E', Wt.
  destruct (conclude_throw (ErrorObject timeout_message) m1) as (m2 & -> & I2 & _ & W2).
  exists m2. split; [reflexivity|]. split; [exact I2|].
  rewrite W2, <- W0. rewrite T; [lia | unfold timeout; lia | reflexivity].
Qed.

(** ** POST *)

Lemma silent_ensure_ready h : silent (ensure_ready h).
Proof. unfold ensure_ready. pose proof (silent_initializeWasm h). auto 10 with silent. Qed.

Lemma silent_on_error e : silent (on_error e).
Proof. unfold on_error. auto 10 with silent. Qed.

Lemma ensure_ready_warm h m :
  not_ready m = false -> ensure_ready h m = (Normal tt, m).
Proof. intros R. unfold ensure_ready. run. rewrite R. reflexivity. Qed.

Lemma ensure_ready_throws h m e m1 :
  ensure_ready h m = (Throw e, m1) -> wasmInstance m1 = None.
Proof.
  unfold ensure_ready. run. destruct (not_ready m); run; [|discriminate].
  apply initializeWasm_throws.
Qed.

(** An attempt that never ends is stuck before the module is instantiated:
    the wait itself always ends. *)
Lemma initializeWasm_never h m m' :
  initializeWasm h m = (Never, m') ->
  wasmInstance m' = None /\ waited m' = waited m /\ forall inst, ~ steps_succeed h m inst.
Proof.
  destruct (wasmInstance m) as [inst|] eqn:W.
  - rewrite (initializeWasm_warm h m inst W). discriminate.
  - destruct (initializeWasm_cold h m W)
      as [(inst & m0 & S & I0 & _ & W0 & E') | [(e & m1 & _ & E' & _) | (m1 & C & E' & I & W1)]];
      rewrite E'; [|discriminate|intros [= <-]; auto].
    pose proof (wait_settles h 0 0 m0) as HS.
    destruct (wait_for_goAdd h 0 0 m0) as [[[]|x|] m1]; cbn [fst] in HS;
      [discriminate|discriminate|congruence].
Qed.

Lemma ensure_ready_never h m m1 :
  ensure_ready h m = (Never, m1) -> wasmInstance m1 = None.
Proof.
  unfold ensure_ready. run. destruct (not_ready m); run; [|discriminate].
  intros E. apply initializeWasm_never in E. tauto.
Qed.

(** The wait leaves [goAdd] as it was or bound to the function of the
    module. *)
Lemma wait_goAdd h k e m :
  goAdd (g (snd (wait_for_goAdd h k e m))) = goAdd (g m) \/
  goAdd (g (snd (wait_for_goAdd h k e m))) = BoundFunction (FuncOf add).
Proof.
  apply (wait_for_goAdd_ind' h
    (fun k e m r => goAdd (g (snd r)) = goAdd (g m) \/
                    goAdd (g (snd r)) = BoundFunction (FuncOf add)));
    clear k e m; intros k e m.
  - intros m' E. apply timer_period_inv in E. cbn [snd]. tauto.
  - intros reason m' E. apply timer_period_inv in E. cbn [snd]. tauto.
  - intros e' m' E IH. apply timer_period_inv in E.
    destruct E as (_ & _ & _ & _ & [[A _]|[A _]] & _); destruct IH as [IH|IH];
      auto; first [left; congruence | right; congruence].
  - intros x m' E. apply timer_period_inv in E. tauto.
Qed.

Lemma initializeWasm_goAdd h m :
  goAdd (g (snd (initializeWasm h m))) = goAdd (g m) \/
  goAdd (g (snd (initializeWasm h m))) = BoundFunction (FuncOf add).
Proof.
  destruct (wasmInstance m) as [inst|] eqn:W.
  - rewrite (initializeWasm_warm h m inst W). left. reflexivity.
  - unfold initializeWasm. run. rewrite W. run. unfold try_catch. run.
    destruct (wasm_exec_js h) as [content|x|]; run; auto.
    destruct (evaluate h content) as [d|x|]; run; auto.
    destruct (Go (g m) || d); run; auto.
    destruct (new_Go h) as [rt|x|]; run; auto.
    destruct (main_go_wasm h) as [bytes|x|]; run; auto.
    destruct (instantiate h bytes) as [inst|x|]; run; auto.
    match goal with |- context [bind (wait_for_goAdd h 0%nat 0) ?k ?s] =>
      unfold bind; pose proof (wait_goAdd h 0 0 s) as HG;
      destruct (wait_for_goAdd h 0 0 s) as [[[]|x|] m1]
    end; cbn [snd g goAdd] in HG; run; exact HG.
Qed.

(** A function of the module comes back, whatever it is called with. *)
Lemma FuncOf_settles fn args : settles (FuncOf fn args).
Proof. unfold settles, FuncOf. destruct (fn Undefined args); discriminate. Qed.


(** Case analysis on whatever the code branches on next. *)
Ltac exec :=
  unfold console_log, console_error, emit, set_wasmInstance, set_goRuntimeInstance,
    set_globals, advance, modify, gets, await, throw, ret, try_catch, bind;
  cbv beta iota;
  cbn [goRuntimeInstance wasmInstance g waited trace Go goAdd fst snd negb orb andb
       typeof String.eqb Ascii.eqb Bool.eqb].
Ltac branch :=
  match goal with
  | |- context [match ?x with _ => _ end] =>
    lazymatch x with
    | context [match _ with _ => _ end] => fail
    | _ => destruct x eqn:?
    end
  end.
Ltac crunch := exec; repeat (branch; exec).

Lemma respond_not_ready request m :
  not_ready m = true ->
  fst (respond request m)
  = Normal {| status := 503;
              body := Object [("error", String "Wasmモジュールが利用できません。サーバー管理者にお問い合わせください。")] |}.
Proof. intros R. unfold respond. run. rewrite R. reflexivity. Qed.

(** What [respond] logs; it calls [goAdd] only past the readiness check and
    the validation of the body. *)
Lemma typeof_number_pair a b :
  negb (String.eqb (typeof a) "number") || negb (String.eqb (typeof b) "number") = false ->
  typeof a = "number" /\ typeof b = "number".
Proof.
  intros H. apply orb_false_elim in H. destruct H as [Ha Hb].
  apply negb_false_iff in Ha, Hb. apply String.eqb_eq in Ha, Hb. auto.
Qed.

Lemma respond_trace request m :
  exists evs,
    trace (snd (respond request m)) = (trace m ++ evs)%list /\
    (Forall no_call evs \/
     not_ready m = false /\
     exists fields, json request = Normal (Object fields) /\
       typeof (own_property "a" fields) = "number" /\
       typeof (own_property "b" fields) = "number").
Proof.
  unfold respond, destructure_a_b, call_goAdd. crunch.
  all: try (exists []; rewrite app_nil_r; split; [reflexivity | left; constructor]; fail).
  all: try (eexists; split; [reflexivity|]; left; repeat constructor; fail).
  all: try discriminate.
  all: eexists; (split; [reflexivity|]); right; (split; [reflexivity|]);
    eexists; (split; [reflexivity|]); apply typeof_number_pair; assumption.
Qed.




Lemma not_ready_false m :
  not_ready m = false <->
  exists inst f, wasmInstance m = Some inst /\ goAdd (g m) = BoundFunction f.
Proof.
  unfold not_ready. split.
  - destruct (wasmInstance m) as [inst|]; [|discriminate].
    intros H. apply negb_false_iff in H. apply is_function_spec in H.
    destruct H as [f H]. eauto.
  - intros (inst & f & -> & ->). reflexivity.
Qed.

Lemma on_error_response e m m' : fst (on_error e m) = fst (on_error e m').
Proof. unfold on_error. exec. destruct (startsWith _ _); reflexivity. Qed.

(** The [catch] clause always answers 500. *)
Lemma on_error_answers e m :
  exists r, fst (on_error e m) = Normal r /\ status r = 500.
Proof.
  unfold on_error. exec. destruct (startsWith _ _); eexists; split; reflexivity.
Qed.

(** The answer in a ready state to a body that is an object with two
    numbers: it is decided by what [goAdd] returns. *)
Lemma POST_ready_numeric h request m f fields :
  not_ready m = false ->
  goAdd (g m) = BoundFunction f ->
  json request = Normal (Object fields) ->
  typeof (own_property "a" fields) = "number" ->
  typeof (own_property "b" fields) = "number" ->
  fst (POST h request m) =
  match f [own_property "a" fields; own_property "b" fields] with
  | Normal (String text) =>
    Normal (if startsWith text "Invalid"
            then NextResponse_json (Object [("error", String text)]) (Some 400)
            else NextResponse_json (Object [("result", String text)]) None)
  | Normal result => Normal (NextResponse_json (Object [("result", result)]) None)
  | Throw e => fst (on_error e m)
  | Never => Never
  end.
Proof.
  intros R G J Ta Tb.
  unfold POST, try_catch, bind. rewrite (ensure_ready_warm h m R).
  unfold respond, destructure_a_b, call_goAdd. exec.
  rewrite R, J. exec. rewrite Ta, Tb. exec. rewrite G. exec.
  destruct (f _) as [result|e|]; [|apply on_error_response|reflexivity].
  destruct result; try reflexivity.
  destruct (startsWith _ _); reflexivity.
Qed.

(** The answer in a ready state to a body that is an object without two
    numbers. *)
Lemma respond_invalid request m fields :
  not_ready m = false ->
  json request = Normal (Object fields) ->
  typeof (own_property "a" fields) <> "number" \/
  typeof (own_property "b" fields) <> "number" ->
  respond request m
  = (Normal (NextResponse_json (Object [("error", String invalid_input_message)]) (Some 400)), m).
Proof.
  intros R J T. unfold respond, destructure_a_b. exec. rewrite R, J. exec.
  destruct (String.eqb_spec (typeof (own_property "a" fields)) "number") as [Ea|Ea];
    destruct (String.eqb_spec (typeof (own_property "b" fields)) "number") as [Eb|Eb];
    cbn [negb orb]; try reflexivity.
  tauto.
Qed.

Lemma effects_of_trans m m1 m2 e1 e2 :
  trace m1 = (trace m ++ e1)%list -> trace m2 = (trace m1 ++ e2)%list ->
  effects_of m m2 = (e1 ++ e2)%list.
Proof.
  intros E1 E2. apply effects_of_app. rewrite E2, E1, app_assoc. reflexivity.
Qed.

Lemma no_call_In evs args : Forall no_call evs -> ~ In (CallGoAdd args) evs.
Proof.
  intros F I. rewrite Forall_forall in F. exact (F _ I).
Qed.

(** [POST] calls [goAdd] only when the first part returned normally, the
    state it left is ready, and the body is an object with two numbers. *)
Lemma POST_invokes h request m args :
  In (CallGoAdd args) (effects_of m (snd (POST h request m))) ->
  exists m1 fields,
    ensure_ready h m = (Normal tt, m1) /\
    not_ready m1 = false /\
    json request = Normal (Object fields) /\
    typeof (own_property "a" fields) = "number" /\
    typeof (own_property "b" fields) = "number".
Proof.
  unfold POST, try_catch, bind.
  destruct (silent_ensure_ready h m) as (e1 & T1 & F1).
  destruct (ensure_ready h m) as [[[]|x|] m1]; cbn [snd] in T1.
  - destruct (respond_trace request m1) as (e2 & T2 & F2).
    assert (In (CallGoAdd args) e2 ->
            exists m0 fields,
              (Normal tt, m1) = (Normal tt, m0) /\ not_ready m0 = false /\
              json request = Normal (Object fields) /\
              typeof (own_property "a" fields) = "number" /\
              typeof (own_property "b" fields) = "number") as Called.
    { intros I. destruct F2 as [F2|(R & fields & J & Ta & Tb)].
      - destruct (no_call_In _ _ F2 I).
      - exists m1, fields. auto. }
    destruct (respond request m1) as [[r|x|] m2]; cbn [snd] in T2 |- *.
    + rewrite (effects_of_trans m m1 m2 e1 e2 T1 T2). intros I.
      apply in_app_or in I. destruct I as [I|I]; [destruct (no_call_In _ _ F1 I) | auto].
    + destruct (silent_on_error x m2) as (e3 & T3 & F3).
      rewrite (effects_of_trans m m2 _ (e1 ++ e2) e3);
        [|rewrite T2, T1, app_assoc; reflexivity|exact T3].
      intros I. apply in_app_or in I.
      destruct I as [I|I]; [|destruct (no_call_In _ _ F3 I)].
      apply in_app_or in I. destruct I as [I|I]; [destruct (no_call_In _ _ F1 I) | auto].
    + rewrite (effects_of_trans m m1 m2 e1 e2 T1 T2). intros I.
      apply in_app_or in I. destruct I as [I|I]; [destruct (no_call_In _ _ F1 I) | auto].
  - destruct (silent_on_error x m1) as (e3 & T3 & F3).
    rewrite (effects_of_trans m m1 _ e1 e3 T1 T3). intros I.
    apply in_app_or in I.
    destruct I as [I|I]; [destruct (no_call_In _ _ F1 I) | destruct (no_call_In _ _ F3 I)].
  - cbn [snd]. rewrite (effects_of_app m m1 e1 T1). intros I. destruct (no_call_In _ _ F1 I).
Qed.






(** Without an instance [initializeWasm] starts with the bootstrap script. *)
Lemma initializeWasm_cold_trace h m :
  wasmInstance m = None ->
  exists rest,
    trace (snd (initializeWasm h m))
    = (trace m ++ ConsoleLog "Wasmモジュールを初期化しています..."
               :: ReadFile "./public/wasm_exec.js" :: rest)%list.
Proof.
  intros W. unfold initializeWasm. run. rewrite W. run.
  match goal with
  | |- context [try_catch (bind (emit ?e) ?k) ?hd ?s] =>
    change (try_catch (bind (emit e) k) hd s) with (try_catch (k tt) hd (snd (emit e s)));
    assert (silent (try_catch (k tt) hd)) as S by (cbv beta; auto 40 with silent);
    destruct (S (snd (emit e s))) as (rest & -> & _)
  end.
  exists rest. cbn. rewrite <- !app_assoc. reflexivity.
Qed.

(** Without an instance the handler starts the whole initialisation. *)
Lemma POST_retries h request m :
  wasmInstance m = None ->
  firstn 3 (effects_of m (snd (POST h request m)))
  = [ConsoleLog "Wasmが未初期化または 'goAdd' が利用不可のため、初期化処理を実行します...";
     ConsoleLog "Wasmモジュールを初期化しています...";
     ReadFile "./public/wasm_exec.js"].
Proof.
  intros W.
  assert (exists rest, trace (snd (POST h request m))
     = (trace m ++ [ConsoleLog "Wasmが未初期化または 'goAdd' が利用不可のため、初期化処理を実行します...";
                   ConsoleLog "Wasmモジュールを初期化しています...";
                   ReadFile "./public/wasm_exec.js"] ++ rest)%list) as [rest E].
  2:{ rewrite (effects_of_app _ _ _ E). reflexivity. }
  unfold POST, try_catch, bind, ensure_ready. unfold not_ready at 1.
  unfold bind at 1, gets at 1. rewrite W. unfold bind at 1. cbn [console_log emit modify].
  match goal with |- context [initializeWasm h ?s] =>
    destruct (initializeWasm_cold_trace h s W) as (r1 & T1);
    destruct (initializeWasm h s) as [[[]|x|] m1]
  end; cbn [snd trace] in T1.
  - destruct (respond_trace request m1) as (e2 & T2 & _).
    destruct (respond request m1) as [[r|x|] m2]; cbn [snd] in T2 |- *.
    + exists (r1 ++ e2)%list. rewrite T2, T1. rewrite <- !app_assoc. reflexivity.
    + destruct (silent_on_error x m2) as (e3 & -> & _).
      exists (r1 ++ e2 ++ e3)%list. rewrite T2, T1. rewrite <- !app_assoc. reflexivity.
    + exists (r1 ++ e2)%list. rewrite T2, T1. rewrite <- !app_assoc. reflexivity.
  - destruct (silent_on_error x m1) as (e3 & -> & _).
    exists (r1 ++ e3)%list. rewrite T1. rewrite <- !app_assoc. reflexivity.
  - exists r1. cbn [snd]. rewrite T1. rewrite <- !app_assoc. reflexivity.
Qed.

(** The first request of a healthy process: the module is initialised, the
    sum computed. *)
Example cold_start_answers_22 :
  fst (POST healthy (payload (Number (of_Z 15)) (Number (of_Z 7))) fresh)
  = Normal {| status := 200; body := Object [("result", Number (of_Z 22))] |}.
Proof. vm_compute. reflexivity. Qed.

(* ===================================================================== *)
(** * The properties of the specification *)
(* ===================================================================== *)

(** C1.  For integers [a] and [b] that are safe together with their sum,
    [add] called with the two numbers returns the number [a + b], which is
    exactly that integer; and [POST], when the module is ready with the Go
    function registered and the body carries the two numbers in its fields
    [a] and [b], answers 200 with [{ result: a + b }]. *)
Theorem C1_sum_of_integers (a b : Z) (fa fb : number) :
  is_integer fa a -> is_integer fb b ->
  safe_integer a -> safe_integer b -> safe_integer (a + b) ->
  (forall this, add this [Number fa; Number fb] = Done (Number (of_Z (a + b)))) /\
  is_integer (of_Z (a + b)) (a + b) /\
  (forall h request m inst fields,
     wasmInstance m = Some inst ->
     goAdd (g m) = BoundFunction (FuncOf add) ->
     json request = Normal (Object fields) ->
     own_property "a" fields = Number fa ->
     own_property "b" fields = Number fb ->
     fst (POST h request m)
     = Normal {| status := 200;
                 body := Object [("result", Number (of_Z (a + b)))] |}).
Proof.
  unfold safe_integer. intros Ia Ib Sa Sb Sab.
  assert (Add : forall this,
             add this [Number fa; Number fb] = Done (Number (of_Z (a + b)))).
  { intros this.
    rewrite (add_numbers this fa fb a b);
      auto using is_integer_integer_part, safe_in_int with zarith;
      try (apply safe_in_int; lia).
    rewrite wrap_in_int by (apply safe_in_int; lia). reflexivity. }
  split; [exact Add|]. split; [apply of_Z_is_integer; lia|].
  intros h request m inst fields W G J Fa Fb.
  rewrite (POST_ready_numeric h request m (FuncOf add) fields); auto.
  - rewrite Fa, Fb. unfold FuncOf. rewrite Add. reflexivity.
  - apply not_ready_false. eauto.
  - rewrite Fa. reflexivity.
  - rewrite Fb. reflexivity.
Qed.

Lemma C1_witness :
  add Undefined [Number (of_Z 15); Number (of_Z 7)] = Done (Number (of_Z 22)) /\
  fst (POST healthy (payload (Number (of_Z (-5))) (Number (of_Z 5)))
         (ready_with (FuncOf add)))
  = Normal {| status := 200; body := Object [("result", Number (of_Z 0))] |}.
Proof.
  split.
  - apply (C1_sum_of_integers 15 7 (of_Z 15) (of_Z 7));
      unfold safe_integer; (reflexivity || lia).
  - apply (C1_sum_of_integers (-5) 5 (of_Z (-5)) (of_Z 5))
      with (inst := WasmInstance 0)
           (fields := [("a", Number (of_Z (-5))); ("b", Number (of_Z 5))]);
      unfold safe_integer; (reflexivity || lia).
Defined.

(** What [POST] answers when [goAdd] returns a string: 400 with the string
    as the error if it starts with [Invalid], 200 with the string as the
    result otherwise. *)
(** What the handler makes of a string that [goAdd] returns: it takes it for
    an error of the module when it starts with [Invalid], and for the
    result otherwise. *)
Lemma POST_string_result h request m inst f fields text :
  wasmInstance m = Some inst ->
  goAdd (g m) = BoundFunction f ->
  json request = Normal (Object fields) ->
  typeof (own_property "a" fields) = "number" ->
  typeof (own_property "b" fields) = "number" ->
  f [own_property "a" fields; own_property "b" fields] = Normal (String text) ->
  fst (POST h request m)
  = Normal (if startsWith text "Invalid"
            then {| status := 400; body := Object [("error", String text)] |}
            else {| status := 200; body := Object [("result", String text)] |}).
Proof.
  intros W G J Ta Tb R.
  rewrite (POST_ready_numeric h request m f fields); auto.
  - rewrite R. destruct (startsWith text "Invalid"); reflexivity.
  - apply not_ready_false. eauto.
Qed.



(** C3.  No failure of [initializeWasm] leaves an instance behind, and only
    a ready state is served.
    - An attempt that throws leaves [wasmInstance] null.
    - An attempt that starts without an instance returns normally only if
      both files were read, [Go] was defined, the runtime was constructed
      and the module instantiated, and [goAdd] is a function by then; the
      instance is then the new one, or null.
    - The callback attached to the promise of [run] nulls [wasmInstance]
      whenever it runs; if the promise rejects while the attempt waits,
      [wasmInstance] is null when the attempt ends.
    - [POST] calls [goAdd] only if, after the attempt, [wasmInstance] is not
      null and [goAdd] is a function.
    - Whenever [wasmInstance] is null, the next [POST] runs the
      initialisation from its first step, the read of the bootstrap
      script. *)
Theorem C3_failed_initialisation_is_not_ready :
  (forall h m e m',
     initializeWasm h m = (Throw e, m') -> wasmInstance m' = None) /\
  (forall h m m',
     wasmInstance m = None ->
     initializeWasm h m = (Normal tt, m') ->
     is_function (goAdd (g m')) = true /\
     exists inst, steps_succeed h m inst /\
                  (wasmInstance m' = Some inst \/ wasmInstance m' = None)) /\
  (forall err m, wasmInstance (snd (on_run_rejected err m)) = None) /\
  (forall h m j err,
     wasmInstance m = None ->
     In (RunRejected err) (background h j) ->
     Z.of_nat j * checkIntervalMs < waited (snd (initializeWasm h m)) - waited m ->
     wasmInstance (snd (initializeWasm h m)) = None) /\
  (forall h request m args,
     In (CallGoAdd args) (effects_of m (snd (POST h request m))) ->
     exists m1 inst f,
       ensure_ready h m = (Normal tt, m1) /\
       wasmInstance m1 = Some inst /\ goAdd (g m1) = BoundFunction f) /\
  (forall h request m,
     wasmInstance m = None ->
     firstn 3 (effects_of m (snd (POST h request m)))
     = [ConsoleLog "Wasmが未初期化または 'goAdd' が利用不可のため、初期化処理を実行します...";
        ConsoleLog "Wasmモジュールを初期化しています...";
        ReadFile "./public/wasm_exec.js"]).
Proof.
  split; [exact initializeWasm_throws|].
  split; [exact initializeWasm_normal|].
  split; [reflexivity|].
  split; [exact initializeWasm_rejection|].
  split; [|exact POST_retries].
  intros h request m args I.
  destruct (POST_invokes h request m args I) as (m1 & fields & E & R & _).
  apply not_ready_false in R. destruct R as (inst & f & W & G).
  exists m1, inst, f. auto.
Qed.

Lemma C3_witness :
  wasmInstance (snd (initializeWasm missing_binary fresh)) = None /\
  is_function (goAdd (g (snd (initializeWasm healthy fresh)))) = true /\
  wasmInstance (snd (initializeWasm crashing fresh)) = None /\
  (exists m1 inst f,
     ensure_ready healthy fresh = (Normal tt, m1) /\
     wasmInstance m1 = Some inst /\ goAdd (g m1) = BoundFunction f) /\
  firstn 3 (effects_of (snd (initializeWasm missing_binary fresh))
              (snd (POST healthy (payload (Number (of_Z 15)) (Number (of_Z 7)))
                      (snd (initializeWasm missing_binary fresh)))))
  = [ConsoleLog "Wasmが未初期化または 'goAdd' が利用不可のため、初期化処理を実行します...";
     ConsoleLog "Wasmモジュールを初期化しています...";
     ReadFile "./public/wasm_exec.js"].
Proof.
  destruct C3_failed_initialisation_is_not_ready
    as (Hthrow & Hnormal & _ & Hrun & Hcall & Hretry).
  split; [|split; [|split; [|split]]].
  - apply (Hthrow missing_binary fresh
             (ErrorObject "Wasm初期化失敗: ENOENT: no such file or directory")).
    vm_compute. reflexivity.
  - assert (E : initializeWasm healthy fresh
                = (Normal tt, snd (initializeWasm healthy fresh)))
      by (lazy -[FuncOf add]; reflexivity).
    exact (proj1 (Hnormal healthy fresh _ eq_refl E)).
  - apply (Hrun crashing fresh 0%nat (ErrorObject "exit code 2")).
    + reflexivity.
    + right. left. reflexivity.
    + vm_compute. reflexivity.
  - apply (Hcall healthy (payload (Number (of_Z 15)) (Number (of_Z 7))) fresh
             [Number (of_Z 15); Number (of_Z 7)]).
    vm_compute. auto 20.
  - apply Hretry.
    apply (Hthrow missing_binary fresh
             (ErrorObject "Wasm初期化失敗: ENOENT: no such file or directory")).
    vm_compute. reflexivity.
Defined.

(** C4.  The readiness wait is bounded.  Time is counted in periods of the
    interval timer, each lasting [checkIntervalMs], as the callback itself
    counts it.  Whatever the host does, an attempt spends at most [timeout]
    plus one period waiting.  If every step before the wait succeeds and
    [goAdd] never becomes a function, the promise is rejected by the
    timeout: the attempt throws the timeout error, [wasmInstance] is null
    afterwards, and the wait lasted [timeout] milliseconds. *)
Theorem C4_wait_is_bounded (h : Host) (m : Machine) :
  waited (snd (initializeWasm h m)) - waited m <= timeout + checkIntervalMs /\
  forall inst,
    wasmInstance m = None ->
    steps_succeed h m inst ->
    is_function (goAdd (g m)) = false ->
    (forall k, ~ In MainRegisters (background h k)) ->
    exists m',
      initializeWasm h m
      = (Throw (ErrorObject ("Wasm初期化失敗: " ++ timeout_message)), m') /\
      wasmInstance m' = None /\
      waited m' - waited m = timeout.
Proof.
  split; [apply initializeWasm_bounded|].
  intros inst. apply initializeWasm_times_out.
Qed.

Lemma C4_witness :
  waited (snd (initializeWasm mute fresh)) - waited fresh <= timeout + checkIntervalMs /\
  exists m',
    initializeWasm mute fresh
    = (Throw (ErrorObject ("Wasm初期化失敗: " ++ timeout_message)), m') /\
    wasmInstance m' = None /\
    waited m' - waited fresh = timeout.
Proof.
  destruct (C4_wait_is_bounded mute fresh) as [Hbound Hfail].
  split; [exact Hbound|].
  apply (Hfail (WasmInstance 0)).
  - reflexivity.
  - exists "globalThis.Go = class { }", true, (GoRuntimeObject 0), [].
    repeat split.
  - reflexivity.
  - intros k I. exact I.
Defined.

(** C5, counterexample.  The payload [{"a":"hello","b":7}] arriving at a
    process whose module binary is missing is answered 500, not 400: the
    handler initialises the module before it looks at the body. *)
Lemma C5_counterexample :
  typeof (String "hello") <> "number" /\
  fst (POST missing_binary (payload (String "hello") (Number (of_Z 7))) fresh)
  = Normal {| status := 500;
              body := Object
                [("error", String "Wasmモジュールの初期化に失敗しました。詳細はサーバーログをご確認ください。");
                 ("details", String "Wasm初期化失敗: ENOENT: no such file or directory")] |} /\
  ~ (exists r,
       fst (POST missing_binary (payload (String "hello") (Number (of_Z 7))) fresh) = Normal r /\
       status r = 400).
Proof.
  split; [discriminate|].
  split; [vm_compute; reflexivity|].
  intros (r & E & S). vm_compute in E. injection E as <-. discriminate.
Qed.

(** C5, amended.  For a body that is an object in which [a] or [b] is not a
    number, [POST] never calls [goAdd]; and if the module is ready after the
    initialisation attempt, it answers 400 with the validation message. *)
Theorem C5_non_numeric_payload (h : Host) (request : Request) (m : Machine)
    (fields : list (string * value)) :
  json request = Normal (Object fields) ->
  typeof (own_property "a" fields) <> "number" \/
  typeof (own_property "b" fields) <> "number" ->
  (forall args, ~ In (CallGoAdd args) (effects_of m (snd (POST h request m)))) /\
  (not_ready (snd (ensure_ready h m)) = false ->
   fst (POST h request m)
   = Normal {| status := 400; body := Object [("error", String invalid_input_message)] |}).
Proof.
  intros J T. split.
  - intros args I.
    destruct (POST_invokes h request m args I) as (m1 & fields' & _ & _ & J' & Ta & Tb).
    rewrite J in J'. injection J' as <-. tauto.
  - unfold POST, try_catch, bind.
    destruct (ensure_ready h m) as [[[]|x|] m1] eqn:E; cbn [snd]; intros R.
    + rewrite (respond_invalid request m1 fields R J T). reflexivity.
    + apply ensure_ready_throws in E. unfold not_ready in R. rewrite E in R. discriminate.
    + apply ensure_ready_never in E. unfold not_ready in R. rewrite E in R. discriminate.
Qed.

Lemma C5_witness :
  (forall args,
     ~ In (CallGoAdd args)
         (effects_of fresh
            (snd (POST healthy (payload (String "hello") (Number (of_Z 7))) fresh)))) /\
  fst (POST healthy (payload (String "hello") (Number (of_Z 7))) fresh)
  = Normal {| status := 400; body := Object [("error", String invalid_input_message)] |}.
Proof.
  destruct (C5_non_numeric_payload healthy (payload (String "hello") (Number (of_Z 7))) fresh
              [("a", String "hello"); ("b", Number (of_Z 7))]) as [Hnever Hanswer].
  - reflexivity.
  - left. discriminate.
  - split; [exact Hnever|]. apply Hanswer. vm_compute. reflexivity.
Defined.

(** C6.  If the first part of the handler, the initialisation attempt where
    one is due, returns and the module is still not ready ([wasmInstance]
    null or [goAdd] not a function), [POST] answers 503 with an error
    string, whatever the request. *)
Theorem C6_not_ready_is_503 (h : Host) (request : Request) (m m1 : Machine) :
  ensure_ready h m = (Normal tt, m1) ->
  not_ready m1 = true ->
  fst (POST h request m)
  = Normal {| status := 503;
              body := Object [("error", String "Wasmモジュールが利用できません。サーバー管理者にお問い合わせください。")] |}.
Proof.
  intros E R. unfold POST, try_catch, bind. rewrite E.
  pose proof (respond_not_ready request m1 R) as A.
  destruct (respond request m1) as [[r|x|] m2]; cbn [fst] in A |- *.
  - exact A.
  - discriminate.
  - discriminate.
Qed.

Lemma C6_witness :
  fst (POST crashing garbled fresh)
  = Normal {| status := 503;
              body := Object [("error", String "Wasmモジュールが利用できません。サーバー管理者にお問い合わせください。")] |}.
Proof.
  apply (C6_not_ready_is_503 crashing garbled fresh (snd (ensure_ready crashing fresh))).
  - lazy -[FuncOf add]. reflexivity.
  - vm_compute. reflexivity.
Defined.

(** C7.  Called when [wasmInstance] is not null, [initializeWasm] returns at
    once: it logs that it skips and does nothing else, so it reads no file,
    runs no script, instantiates nothing and leaves the global namespace
    and the module variables as they were; a second call right after does
    the same. *)
Theorem C7_initialised_is_skipped (h h' : Host) (m : Machine) (inst : Instance) :
  wasmInstance m = Some inst ->
  let m1 := snd (initializeWasm h m) in
  let m2 := snd (initializeWasm h' m1) in
  fst (initializeWasm h m) = Normal tt /\
  effects_of m m1 = [ConsoleLog "Wasmは既に初期化されています。スキップします。"] /\
  g m1 = g m /\ wasmInstance m1 = wasmInstance m /\
  goRuntimeInstance m1 = goRuntimeInstance m /\ waited m1 = waited m /\
  fst (initializeWasm h' m1) = Normal tt /\
  effects_of m1 m2 = [ConsoleLog "Wasmは既に初期化されています。スキップします。"] /\
  g m2 = g m /\ wasmInstance m2 = wasmInstance m /\
  goRuntimeInstance m2 = goRuntimeInstance m /\ waited m2 = waited m.
Proof.
  intros W m1 m2. subst m2 m1.
  rewrite (initializeWasm_warm h m inst W).
  rewrite (initializeWasm_warm h' _ inst) by exact W.
  cbn [console_log emit modify fst snd g wasmInstance goRuntimeInstance waited].
  repeat split; apply effects_of_app; reflexivity.
Qed.

Lemma C7_witness :
  fst (initializeWasm missing_binary (ready_with (FuncOf add))) = Normal tt /\
  effects_of (ready_with (FuncOf add))
    (snd (initializeWasm missing_binary (ready_with (FuncOf add))))
  = [ConsoleLog "Wasmは既に初期化されています。スキップします。"].
Proof.
  destruct (C7_initialised_is_skipped missing_binary missing_binary
              (ready_with (FuncOf add)) (WasmInstance 0) eq_refl)
    as (H1 & H2 & _).
  split; [exact H1 | exact H2].
Defined.

(** C8.  Called with any number of arguments other than two, [add] returns
    the string [Invalid number of arguments]; it does not panic, and the
    JavaScript caller of [goAdd] gets the string, no exception. *)
Theorem C8_wrong_argument_count (this : value) (args : list value) :
  List.length args <> 2%nat ->
  add this args = Done (String "Invalid number of arguments") /\
  FuncOf add args = Normal (String "Invalid number of arguments").
Proof.
  intros L.
  assert (E : forall t, add t args = Done (String "Invalid number of arguments")).
  { intros t. unfold add. destruct (Nat.eqb_spec (List.length args) 2); [contradiction|].
    reflexivity. }
  split; [apply E|]. unfold FuncOf. rewrite E. reflexivity.
Qed.

Lemma C8_witness :
  add Undefined [Number (of_Z 1); Number (of_Z 2); Number (of_Z 3)]
  = Done (String "Invalid number of arguments") /\
  FuncOf add [] = Normal (String "Invalid number of arguments").
Proof.
  split.
  - apply (C8_wrong_argument_count Undefined
             [Number (of_Z 1); Number (of_Z 2); Number (of_Z 3)]).
    cbn. lia.
  - apply (C8_wrong_argument_count Undefined []). cbn. lia.
Defined.

(** C9, counterexample.  The two arguments [2^62]: each is its own integer
    part and fits [int], their sum [2^63] does not, and [add] returns
    [-2^63]. *)
Lemma C9_counterexample :
  integer_part (of_Z (2 ^ 62)) (2 ^ 62) /\
  add Undefined [Number (of_Z (2 ^ 62)); Number (of_Z (2 ^ 62))]
  = Done (Number (of_Z (- 2 ^ 63))) /\
  add Undefined [Number (of_Z (2 ^ 62)); Number (of_Z (2 ^ 62))]
  <> Done (Number (of_Z (2 ^ 62 + 2 ^ 62))).
Proof.
  split; [|split].
  - apply integer_part_trunc. vm_compute. reflexivity.
  - vm_compute. reflexivity.
  - vm_compute. discriminate.
Qed.

(** C9, amended.  For two numbers whose integer parts (rounding toward
    zero) and the sum of these fit the 64-bit [int] of Go, [add] returns the
    number nearest to the sum of the integer parts, which is that sum itself
    when it is a safe integer.  For 1.5 and 2.5 it returns 3, while
    [1.5 + 2.5] is 4. *)
Theorem C9_sum_of_integer_parts (this : value) (fa fb : number) (ta tb : Z) :
  integer_part fa ta -> integer_part fb tb ->
  in_int ta = true -> in_int tb = true -> in_int (ta + tb) = true ->
  add this [Number fa; Number fb] = Done (Number (of_Z (ta + tb))) /\
  (safe_integer (ta + tb) -> is_integer (of_Z (ta + tb)) (ta + tb)) /\
  add this [Number one_and_half; Number two_and_half] = Done (Number (of_Z 3)) /\
  plus one_and_half two_and_half = of_Z 4 /\
  of_Z 3 <> of_Z 4.
Proof.
  intros Pa Pb Ia Ib Iab.
  split; [|split; [|split; [|split]]].
  - rewrite (add_numbers this fa fb ta tb Pa Pb Ia Ib).
    rewrite (wrap_in_int _ Iab). reflexivity.
  - unfold safe_integer. intros S. apply of_Z_is_integer. lia.
  - rewrite (add_numbers this one_and_half two_and_half 1 2).
    + reflexivity.
    + apply integer_part_trunc. reflexivity.
    + apply integer_part_trunc. reflexivity.
    + reflexivity.
    + reflexivity.
  - vm_compute. reflexivity.
  - vm_compute. discriminate.
Qed.

Lemma C9_witness :
  add Undefined [Number one_and_half; Number (of_Z (-7))] = Done (Number (of_Z (-6))).
Proof.
  apply (C9_sum_of_integer_parts Undefined one_and_half (of_Z (-7)) 1 (-7)).
  - apply integer_part_trunc. reflexivity.
  - apply integer_part_trunc. reflexivity.
  - reflexivity.
  - reflexivity.
  - reflexivity.
Defined.

(** C10.  With the module ready, a request whose body cannot be parsed as
    JSON is answered 500 with the message of the exception as details, and
    [goAdd] is not called; the error text is the generic one unless that
    message starts with the marker of an initialisation failure. *)
Theorem C10_unparseable_body_is_500 (h : Host) (request : Request) (m : Machine)
    (inst : Instance) (f : function) (e : thrown) :
  wasmInstance m = Some inst ->
  goAdd (g m) = BoundFunction f ->
  json request = Throw e ->
  let details := message_or "不明なエラーが発生しました。" e in
  fst (POST h request m)
  = Normal {| status := 500;
              body := Object
                [("error",
                  String (if startsWith details "Wasm初期化失敗:"
                          then "Wasmモジュールの初期化に失敗しました。詳細はサーバーログをご確認ください。"
                          else "内部サーバーエラーが発生しました。処理中に予期せぬ問題が発生しました。"));
                 ("details", String details)] |} /\
  forall args, ~ In (CallGoAdd args) (effects_of m (snd (POST h request m))).
Proof.
  intros W G J details. subst details.
  assert (R : not_ready m = false) by (apply not_ready_false; eauto).
  split.
  - unfold POST, try_catch, bind. rewrite (ensure_ready_warm h m R).
    unfold respond. exec. rewrite R, J. exec.
    unfold on_error. exec. destruct (startsWith _ _); reflexivity.
  - intros args I.
    destruct (POST_invokes h request m args I) as (_ & fields & _ & _ & J' & _).
    congruence.
Qed.

Lemma C10_witness :
  fst (POST healthy garbled (ready_with (FuncOf add)))
  = Normal {| status := 500;
              body := Object
                [("error", String "内部サーバーエラーが発生しました。処理中に予期せぬ問題が発生しました。");
                 ("details", String "Unexpected token h in JSON at position 1")] |}.
Proof.
  apply (C10_unparseable_body_is_500 healthy garbled (ready_with (FuncOf add))
           (WasmInstance 0) (FuncOf add)
           (ErrorObject "Unexpected token h in JSON at position 1")
           eq_refl eq_refl eq_refl).
Defined.

(* ===================================================================== *)
(** * Further properties of main.go *)
(* ===================================================================== *)

(** The check of the handler ([typeof v === 'number']) and the check of the
    Go side ([v.Type() == js.TypeNumber]) accept the same values. *)
Lemma typeof_number_Value_Type v :
  typeof v = "number" <-> Value_Type v = Done TypeNumber.
Proof. destruct v; cbn; split; (reflexivity || discriminate). Qed.

Lemma Value_Type_number_inv v :
  Value_Type v = Done TypeNumber -> exists n, v = Number n.
Proof. destruct v; try discriminate. eauto. Qed.

(** [Value.Type] panics on a bigint and on nothing else. *)
Lemma Value_Type_panics v :
  (exists msg, Value_Type v = Panic msg) <-> typeof v = "bigint".
Proof.
  destruct v; cbn; split; try discriminate; try (intros [msg E]; discriminate); eauto.
Qed.

(** What [add] computes on two numbers, whatever they are. *)
Lemma add_on_numbers this fa fb :
  add this [Number fa; Number fb]
  = Done (Number (of_Z (int_add (int_of_float64 fa) (int_of_float64 fb)))).
Proof. reflexivity. Qed.

(** What [add] does with two arguments, by the type of the first and, when
    that is a number, of the second. *)
Lemma add_two_arguments this a0 a1 :
  add this [a0; a1] =
  match Value_Type a0 with
  | Panic msg => Panic msg
  | Done TypeNumber =>
    match Value_Type a1 with
    | Panic msg => Panic msg
    | Done TypeNumber =>
      match a0, a1 with
      | Number fa, Number fb =>
        Done (Number (of_Z (int_add (int_of_float64 fa) (int_of_float64 fb))))
      | _, _ => Panic "syscall/js: call of Value.Int on a value that is not a number"
      end
    | Done _ => Done (String "Argument 2 is not a valid integer")
    end
  | Done _ => Done (String "Argument 1 is not a valid integer")
  end.
Proof.
  destruct a0; try reflexivity.
  destruct a1; reflexivity.
Qed.

(** X1.  [add] panics only on a bigint.  It panics exactly when it is called
    with two arguments of which the first is a bigint, or the first is a
    number and the second a bigint: [Value.Type] has no type for a bigint.
    The length check guards the two index expressions and the type check
    guards [Value.Int], so on every other argument list [add] returns, and
    the JavaScript caller of [goAdd] gets what it returned.  In particular
    it does not panic on what the handler passes, two values of type
    number. *)
Theorem add_panics_only_on_bigint (this : value) (args : list value) :
  ((exists msg, add this args = Panic msg) <->
   (exists z a1, args = [BigInt z; a1]) \/
   (exists n z, args = [Number n; BigInt z])) /\
  ((exists v, add this args = Done v /\ FuncOf add args = Normal v) \/
   add this args = Panic "bad type flag").
Proof.
  assert (Returns : forall v, add this args = Done v ->
            (exists v, add this args = Done v /\ FuncOf add args = Normal v) \/
            add this args = Panic "bad type flag").
  { intros v E. left. exists v. split; [exact E|].
    unfold FuncOf. change (add Undefined args) with (add this args).
    rewrite E. reflexivity. }
  destruct args as [|a0 [|a1 [|a2 rest]]].
  1, 2, 4: split; [split; [intros [msg E]; discriminate
                          | intros [(z & a & E) | (n & z & E)]; discriminate]
                  | eapply Returns; reflexivity].
  pose proof (add_two_arguments this a0 a1) as E.
  destruct a0; cbn [Value_Type] in E;
    try (split; [split; [intros [msg C]; rewrite E in C; discriminate
                        | intros [(z & a & C) | (n & z & C)]; discriminate]
                | eapply Returns; exact E]).
  - destruct a1; cbn [Value_Type] in E;
      try (split; [split; [intros [msg C]; rewrite E in C; discriminate
                          | intros [(z & a & C) | (n' & z & C)]; discriminate]
                  | eapply Returns; exact E]).
    split; [split; [intros _; right; eauto | intros _; eauto] | right; exact E].
  - split; [split; [intros _; left; eauto | intros _; eauto] | right; exact E].
Qed.

(** X2.  Of two arguments, [add] names the first that is of another type
    than number: if the first is neither a number nor a bigint the answer is
    [Argument 1 is not a valid integer], whatever the second is; if the
    first is a number and the second is neither a number nor a bigint, it is
    [Argument 2 is not a valid integer].  (On a bigint in either place
    [Value.Type] panics instead.) *)
Theorem add_names_first_bad_argument (this a0 a1 : value) :
  (typeof a0 <> "number" -> typeof a0 <> "bigint" ->
   add this [a0; a1] = Done (String "Argument 1 is not a valid integer")) /\
  (typeof a0 = "number" -> typeof a1 <> "number" -> typeof a1 <> "bigint" ->
   add this [a0; a1] = Done (String "Argument 2 is not a valid integer")).
Proof.
  rewrite add_two_arguments. split.
  - intros T B. destruct a0; cbn; try reflexivity.
    + exfalso. apply T. reflexivity.
    + exfalso. apply B. reflexivity.
  - intros T0 T1 B1. apply typeof_number_Value_Type in T0. rewrite T0.
    destruct a1; cbn; try reflexivity.
    + exfalso. apply T1. reflexivity.
    + exfalso. apply B1. reflexivity.
Qed.

Lemma add_names_first_bad_argument_witness :
  add Undefined [FunctionObject 0; BigInt 1]
  = Done (String "Argument 1 is not a valid integer") /\
  add Undefined [Number (of_Z 7); Symbol "seven"]
  = Done (String "Argument 2 is not a valid integer").
Proof.
  split.
  - apply (add_names_first_bad_argument Undefined (FunctionObject 0) (BigInt 1));
      discriminate.
  - apply (add_names_first_bad_argument Undefined (Number (of_Z 7)) (Symbol "seven")).
    + reflexivity.
    + discriminate.
    + discriminate.
Defined.

(** X3.  [add] returns a number exactly when it is called with two numbers.
    In every other case it returns one of its three error strings, or it
    panics in [Value.Type], which happens on a bigint only.  So a caller
    can tell success from failure by the type of the result. *)
Theorem add_returns_number_iff (this : value) (args : list value) :
  ((exists n, add this args = Done (Number n)) <->
   (exists fa fb, args = [Number fa; Number fb])) /\
  ((exists n, add this args = Done (Number n)) \/
   add this args = Done (String "Invalid number of arguments") \/
   add this args = Done (String "Argument 1 is not a valid integer") \/
   add this args = Done (String "Argument 2 is not a valid integer") \/
   add this args = Panic "bad type flag").
Proof.
  destruct args as [|a0 [|a1 [|a2 rest]]].
  1, 2, 4: split; [split; [intros [n E]; discriminate | intros (fa & fb & E); discriminate]
                  | right; left; reflexivity].
  pose proof (add_two_arguments this a0 a1) as E.
  destruct a0; cbn [Value_Type] in E;
    try (split; [split; [intros [n C]; rewrite E in C; discriminate
                        | intros (fa & fb & C); discriminate]
                | rewrite E; auto 6]).
  destruct a1; cbn [Value_Type] in E;
    try (split; [split; [intros [n' C]; rewrite E in C; discriminate
                        | intros (fa & fb & C); discriminate]
                | rewrite E; auto 6]).
  split; [split; eauto | left; eauto].
Qed.

(** X4.  On two numbers [add] does not depend on the order of its
    arguments, also when an argument has no integer part or the sum
    wraps. *)
Theorem add_commutes (this : value) (fa fb : number) :
  add this [Number fa; Number fb] = add this [Number fb; Number fa].
Proof.
  rewrite !add_on_numbers. unfold int_add. rewrite Z.add_comm. reflexivity.
Qed.

(* ===================================================================== *)
(** * Further properties of the readiness wait and initializeWasm *)
(* ===================================================================== *)

(** Without a rejection the background leaves the instance alone. *)
Lemma deliver_all_quiet evs m m0 :
  deliver_all evs m = (Normal tt, m0) ->
  (forall err, ~ In (RunRejected err) evs) ->
  wasmInstance m0 = wasmInstance m.
Proof.
  revert m. induction evs as [|ev evs IH]; intros m E Q.
  - cbn in E. injection E as <-. reflexivity.
  - cbn [deliver_all] in E. unfold bind in E.
    destruct ev as [|err]; [|exfalso; apply (Q err); left; reflexivity].
    cbn in E. rewrite (IH _ E); [reflexivity|].
    intros err C. apply (Q err). right. exact C.
Qed.

(** One period of the timer, when the promise of [run] does not reject in
    it: the instance stays, and the period ends by what [goAdd] is once the
    background has made its progress. *)
Lemma timer_period_quiet h k e m :
  (forall err, ~ In (RunRejected err) (background h k)) ->
  exists m0,
    deliver_all (background h k) m = (Normal tt, m0) /\
    wasmInstance m0 = wasmInstance m /\
    ((is_function (goAdd (g m0)) = true /\
      exists m', timer_period h k e m = (Normal Resolved, m') /\
                 wasmInstance m' = wasmInstance m /\ g m' = g m0 /\
                 waited m' = waited m + checkIntervalMs)
     \/
     (is_function (goAdd (g m0)) = false /\ e + checkIntervalMs < timeout /\
      exists m', timer_period h k e m = (Normal (Pending (e + checkIntervalMs)), m') /\
                 wasmInstance m' = wasmInstance m /\ g m' = g m0 /\
                 waited m' = waited m + checkIntervalMs)
     \/
     (is_function (goAdd (g m0)) = false /\ timeout <= e + checkIntervalMs /\
      exists m', timer_period h k e m
                 = (Normal (Rejected (ErrorObject timeout_message)), m') /\
                 wasmInstance m' = None /\ g m' = g m0 /\
                 waited m' = waited m + checkIntervalMs)).
Proof.
  intros Q.
  destruct (deliver_all_state (background h k) m) as (m0 & E & Hw & _ & _ & HI & _).
  pose proof (deliver_all_quiet _ _ _ E Q) as I0.
  exists m0. split; [exact E|]. split; [exact I0|].
  unfold timer_period, bind. rewrite E.
  unfold advance, emit, modify. cbv beta iota.
  unfold interval_callback, bind, gets. cbv beta iota. cbn [g].
  fold (is_function (goAdd (g m0))).
  destruct (is_function (goAdd (g m0))) eqn:F.
  - left. split; [reflexivity|]. eexists. split; [reflexivity|].
    cbn. rewrite Hw. auto.
  - destruct (Z.leb_spec timeout (e + checkIntervalMs)).
    + right. right. split; [reflexivity|]. split; [assumption|].
      eexists. split; [reflexivity|]. cbn. rewrite Hw. auto.
    + right. left. split; [reflexivity|]. split; [assumption|].
      eexists. split; [reflexivity|]. cbn. rewrite Hw. auto.
Qed.

(** What the background leaves in [goAdd]. *)
Lemma deliver_all_goAdd evs m m0 :
  deliver_all evs m = (Normal tt, m0) ->
  (In MainRegisters evs -> goAdd (g m0) = BoundFunction (FuncOf add)) /\
  (~ In MainRegisters evs -> goAdd (g m0) = goAdd (g m)) /\
  Go (g m0) = Go (g m).
Proof.
  intros E.
  destruct (deliver_all_state evs m) as (m0' & E' & _ & _ & HG & _ & HA).
  rewrite E in E'. injection E' as <-.
  split; [|split; [|exact HG]].
  - intros I. destruct HA as [[HA _]|[_ HA]]; [exact HA | contradiction].
  - intros I. destruct HA as [[_ HA]|[HA _]]; [contradiction | exact HA].
Qed.

(** The wait resolves at the first firing that finds [goAdd], if it comes
    before the timeout; [n] firings lie between the start and the firing
    before which the Go program registers. *)
Lemma wait_resolves h inst n :
  forall k e m,
    wasmInstance m = Some inst ->
    Z.of_nat n * checkIntervalMs < timeout - e ->
    In MainRegisters (background h (k + n)) ->
    (forall i err, (k <= i <= k + n)%nat -> ~ In (RunRejected err) (background h i)) ->
    exists m',
      wait_for_goAdd h k e m = (Normal tt, m') /\
      wasmInstance m' = Some inst /\
      is_function (goAdd (g m')) = true /\
      0 < waited m' - waited m <= (Z.of_nat n + 1) * checkIntervalMs /\
      (is_function (goAdd (g m)) = false ->
       (forall i, (k <= i < k + n)%nat -> ~ In MainRegisters (background h i)) ->
       waited m' - waited m = (Z.of_nat n + 1) * checkIntervalMs /\
       goAdd (g m') = BoundFunction (FuncOf add)).
Proof.
  induction n as [|n IH]; intros k e m W L R Q.
  - rewrite Nat.add_0_r in R.
    destruct (timer_period_quiet h k e m) as (m0 & D & _ & Cases).
    { intros err. apply Q. lia. }
    destruct (deliver_all_goAdd _ _ _ D) as (Reg & _ & _).
    specialize (Reg R).
    destruct Cases as [(F & m' & E & I & G & T)|[(F & _)|(F & _)]];
      [|rewrite Reg in F; discriminate..].
    exists m'. rewrite wait_for_goAdd_unfold, E.
    split; [reflexivity|]. split; [congruence|]. split; [rewrite G; exact F|].
    unfold checkIntervalMs in *. split; [lia|].
    intros _ _. split; [lia | congruence].
  - destruct (timer_period_quiet h k e m) as (m0 & D & _ & Cases).
    { intros err. apply Q. lia. }
    destruct (deliver_all_goAdd _ _ _ D) as (_ & Keep & _).
    destruct Cases as [(F & m' & E & I & G & T)|[(F & Lt & m' & E & I & G & T)|(F & Ge & _)]].
    + exists m'. rewrite wait_for_goAdd_unfold, E.
      split; [reflexivity|]. split; [congruence|]. split; [rewrite G; exact F|].
      unfold checkIntervalMs in *. split; [lia|].
      intros F0 N. exfalso.
      rewrite Keep in F by (apply N; lia). congruence.
    + destruct (IH (S k) (e + checkIntervalMs) m') as (m'' & E' & I' & F' & T' & X).
      * congruence.
      * unfold checkIntervalMs in *. lia.
      * replace (S k + n)%nat with (k + S n)%nat by lia. exact R.
      * intros i err Hi. apply Q. lia.
      * exists m''. rewrite wait_for_goAdd_unfold, E.
        split; [exact E'|]. split; [exact I'|]. split; [exact F'|].
        unfold checkIntervalMs in *. split; [lia|].
        intros F0 N.
        destruct X as [X1 X2].
        -- rewrite G. exact F.
        -- intros i Hi. apply N. lia.
        -- split; [lia | exact X2].
    + exfalso. unfold checkIntervalMs in *. lia.
Qed.

Lemma steps_succeed_unique h m inst inst' :
  steps_succeed h m inst -> steps_succeed h m inst' -> inst = inst'.
Proof.
  intros (c & d & r & b & E1 & E2 & _ & _ & E5 & E6)
         (c' & d' & r' & b' & E1' & E2' & _ & _ & E5' & E6').
  congruence.
Qed.

(** An attempt whose steps succeed returns as soon as a firing finds
    [goAdd], provided that firing comes before the timeout and the promise
    of [run] has not rejected by then. *)
Lemma initializeWasm_resolves h m inst j :
  wasmInstance m = None ->
  steps_succeed h m inst ->
  Z.of_nat j * checkIntervalMs < timeout ->
  In MainRegisters (background h j) ->
  (forall i err, (i <= j)%nat -> ~ In (RunRejected err) (background h i)) ->
  exists m',
    initializeWasm h m = (Normal tt, m') /\
    wasmInstance m' = Some inst /\
    is_function (goAdd (g m')) = true /\
    0 < waited m' - waited m <= (Z.of_nat j + 1) * checkIntervalMs /\
    (is_function (goAdd (g m)) = false ->
     (forall i, (i < j)%nat -> ~ In MainRegisters (background h i)) ->
     waited m' - waited m = (Z.of_nat j + 1) * checkIntervalMs /\
     goAdd (g m') = BoundFunction (FuncOf add)).
Proof.
  intros W S L R Q.
  destruct (initializeWasm_cold h m W)
    as [(inst' & m0 & S' & I0 & G0 & W0 & E) | [(e & m1 & C & _) | (m1 & C & _)]];
    [|exfalso; exact (C inst S)|exfalso; exact (C inst S)].
  rewrite (steps_succeed_unique h m inst' inst S' S) in I0.
  destruct (wait_resolves h inst j 0 0 m0 I0) as (m1 & E1 & I1 & F1 & T1 & X1).
  - lia.
  - exact R.
  - intros i err Hi. apply Q. lia.
  - rewrite E, E1.
    destruct (conclude_normal m1) as (m2 & -> & I2 & G2 & W2).
    exists m2. split; [reflexivity|]. split; [congruence|].
    split; [rewrite G2; exact F1|]. split; [lia|].
    intros F N. rewrite <- G0 in F.
    destruct X1 as [X1 X2]; [exact F | intros i Hi; apply N; lia|].
    split; [lia | rewrite G2; exact X2].
Qed.

(** If no firing before the timeout finds [goAdd], the wait rejects, also
    when the Go program registers later. *)
Lemma wait_deadline h k e m :
  e < timeout ->
  is_function (goAdd (g m)) = false ->
  (forall i, (k <= i)%nat -> Z.of_nat (i - k) * checkIntervalMs < timeout - e ->
             ~ In MainRegisters (background h i)) ->
  exists m',
    wait_for_goAdd h k e m = (Throw (ErrorObject timeout_message), m') /\
    wasmInstance m' = None.
Proof.
  apply (wait_for_goAdd_ind' h
    (fun k e m r =>
       e < timeout ->
       is_function (goAdd (g m)) = false ->
       (forall i, (k <= i)%nat -> Z.of_nat (i - k) * checkIntervalMs < timeout - e ->
                  ~ In MainRegisters (background h i)) ->
       exists m', r = (Throw (ErrorObject timeout_message), m') /\ wasmInstance m' = None));
    clear k e m; intros k e m.
  - intros m' E L F N. apply timer_period_inv in E.
    destruct E as (_ & _ & _ & _ & [[_ A]|[A _]] & R).
    + exfalso. apply (N k); [lia | rewrite Nat.sub_diag; lia | exact A].
    + rewrite A, F in R. discriminate.
  - intros reason m' E L F N. apply timer_period_inv in E.
    destruct E as (_ & _ & _ & _ & _ & -> & _ & _ & I).
    exists m'. auto.
  - intros e' m' E IH L F N. apply timer_period_inv in E.
    destruct E as (_ & _ & _ & _ & _ & -> & F' & L').
    apply IH; [exact L' | exact F' |].
    intros i Hi Hlt. apply N; [lia|].
    replace (Z.of_nat (i - k)) with (Z.of_nat (i - S k) + 1) by lia.
    unfold checkIntervalMs in *. lia.
  - intros x m' E. apply timer_period_inv in E. tauto.
Qed.

(** X6.  The deadline of the wait: if every step succeeds and no firing
    before the timeout (none of the first 100) finds [goAdd], the attempt
    fails with the timeout error and clears the instance, also when the Go
    program registers [goAdd] later. *)
Theorem registration_after_the_deadline_is_too_late (h : Host) (m : Machine)
    (inst : Instance) :
  wasmInstance m = None ->
  steps_succeed h m inst ->
  is_function (goAdd (g m)) = false ->
  (forall i, Z.of_nat i * checkIntervalMs < timeout ->
             ~ In MainRegisters (background h i)) ->
  exists m',
    initializeWasm h m
    = (Throw (ErrorObject ("Wasm初期化失敗: " ++ timeout_message)), m') /\
    wasmInstance m' = None.
Proof.
  intros W S F N.
  destruct (initializeWasm_cold h m W)
    as [(inst' & m0 & _ & _ & G0 & _ & E) | [(e & m1 & C & _) | (m1 & C & _)]];
    [|exfalso; exact (C inst S)|exfalso; exact (C inst S)].
  rewrite <- G0 in F.
  destruct (wait_deadline h 0 0 m0) as (m1 & E1 & I1).
  - unfold timeout. lia.
  - exact F.
  - intros i _ Hi. apply N. rewrite Nat.sub_0_r in Hi. lia.
  - rewrite E, E1.
    destruct (conclude_throw (ErrorObject timeout_message) m1) as (m2 & -> & I2 & _).
    exists m2. auto.
Qed.

Lemma registration_after_the_deadline_is_too_late_witness :
  exists m',
    initializeWasm late fresh
    = (Throw (ErrorObject ("Wasm初期化失敗: " ++ timeout_message)), m') /\
    wasmInstance m' = None.
Proof.
  apply (registration_after_the_deadline_is_too_late late fresh (WasmInstance 0)).
  - reflexivity.
  - exists "globalThis.Go = class { }", true, (GoRuntimeObject 0), [].
    repeat split.
  - reflexivity.
  - intros i Hi. cbn.
    destruct (Nat.eqb_spec i 100) as [->|_]; [vm_compute in Hi; discriminate | intros []].
Defined.

(** X5.  The wait ends as soon as [goAdd] is found.  If every step succeeds,
    [goAdd] is not a function before, the Go program first registers it
    before the firing of index [j], one of the first 100, and the promise of
    [run] has not rejected by then, then the attempt returns after exactly
    [j + 1] periods, with the new instance in [wasmInstance] and the Go
    function [add] behind [goAdd]: the module is ready. *)
Theorem initialisation_succeeds_on_registration (h : Host) (m : Machine)
    (inst : Instance) (j : nat) :
  wasmInstance m = None ->
  steps_succeed h m inst ->
  is_function (goAdd (g m)) = false ->
  Z.of_nat j * checkIntervalMs < timeout ->
  In MainRegisters (background h j) ->
  (forall i, (i < j)%nat -> ~ In MainRegisters (background h i)) ->
  (forall i err, (i <= j)%nat -> ~ In (RunRejected err) (background h i)) ->
  exists m',
    initializeWasm h m = (Normal tt, m') /\
    wasmInstance m' = Some inst /\
    goAdd (g m') = BoundFunction (FuncOf add) /\
    not_ready m' = false /\
    waited m' - waited m = (Z.of_nat j + 1) * checkIntervalMs.
Proof.
  intros W S F L R N Q.
  destruct (initializeWasm_resolves h m inst j W S L R Q) as (m' & E & I & _ & _ & X).
  destruct (X F N) as [T G].
  exists m'. repeat split; try assumption.
  apply not_ready_false. eauto.
Qed.

Lemma initialisation_succeeds_on_registration_witness :
  exists m',
    initializeWasm healthy fresh = (Normal tt, m') /\
    wasmInstance m' = Some (WasmInstance 0) /\
    goAdd (g m') = BoundFunction (FuncOf add) /\
    not_ready m' = false /\
    waited m' - waited fresh = (Z.of_nat 0 + 1) * checkIntervalMs.
Proof.
  apply (initialisation_succeeds_on_registration healthy fresh (WasmInstance 0) 0).
  - reflexivity.
  - exists "globalThis.Go = class { }", true, (GoRuntimeObject 0), [].
    repeat split.
  - reflexivity.
  - reflexivity.
  - left. reflexivity.
  - intros i Hi. lia.
  - intros i err Hi. replace i with 0%nat by lia. cbn. intros [C|[]]. discriminate.
Defined.

(** X7.  A [goAdd] left over from an earlier instance counts as readiness.
    If the instance is null while [goAdd] is still bound to a function [f],
    and every step succeeds, the attempt returns at the first firing, with
    the new instance in [wasmInstance] and [goAdd] still [f], although the
    new Go program has registered nothing. *)
Theorem leftover_goAdd_ends_the_wait (h : Host) (m : Machine) (inst : Instance)
    (f : function) :
  wasmInstance m = None ->
  steps_succeed h m inst ->
  goAdd (g m) = BoundFunction f ->
  ~ In MainRegisters (background h 0) ->
  (forall err, ~ In (RunRejected err) (background h 0)) ->
  exists m',
    initializeWasm h m = (Normal tt, m') /\
    wasmInstance m' = Some inst /\
    goAdd (g m') = BoundFunction f /\
    not_ready m' = false /\
    waited m' - waited m = checkIntervalMs.
Proof.
  intros W S G N Q.
  destruct (initializeWasm_cold h m W)
    as [(inst' & m0 & S' & I0 & G0 & W0 & E) | [(e & m1 & C & _) | (m1 & C & _)]];
    [|exfalso; exact (C inst S)|exfalso; exact (C inst S)].
  rewrite (steps_succeed_unique h m inst' inst S' S) in I0.
  destruct (timer_period_quiet h 0 0 m0 Q) as (m1 & D & _ & Cases).
  destruct (deliver_all_goAdd _ _ _ D) as (_ & Keep & _).
  specialize (Keep N). rewrite G0, G in Keep.
  destruct Cases as [(F & m' & P & I & G' & T)|[(F & _)|(F & _)]];
    [|rewrite Keep in F; discriminate..].
  rewrite E, wait_for_goAdd_unfold, P.
  destruct (conclude_normal m') as (m2 & -> & I2 & G2 & W2).
  exists m2. split; [reflexivity|].
  assert (I3 : wasmInstance m2 = Some inst) by congruence.
  assert (G3 : goAdd (g m2) = BoundFunction f) by congruence.
  repeat split; try assumption.
  - apply not_ready_false. eauto.
  - lia.
Qed.

Lemma leftover_goAdd_ends_the_wait_witness :
  exists m',
    initializeWasm mute (orphaned (fun _ => Throw (ErrorObject "Go program has already exited")))
    = (Normal tt, m') /\
    wasmInstance m' = Some (WasmInstance 0) /\
    goAdd (g m') = BoundFunction (fun _ => Throw (ErrorObject "Go program has already exited")) /\
    not_ready m' = false /\
    waited m' - waited (orphaned (fun _ => Throw (ErrorObject "Go program has already exited")))
    = checkIntervalMs.
Proof.
  apply (leftover_goAdd_ends_the_wait mute _ (WasmInstance 0)
           (fun _ => Throw (ErrorObject "Go program has already exited"))).
  - reflexivity.
  - exists "globalThis.Go = class { }", true, (GoRuntimeObject 0), [].
    repeat split.
  - reflexivity.
  - intros [].
  - intros err [].
Defined.

(** X8.  A failed attempt does not stand in the way of the next one.  After
    an attempt that threw, on whatever host and from whatever state, an
    attempt whose steps succeed and whose Go program registers [goAdd]
    before one of the first 100 firings, with no rejection of [run] until
    then, returns with the new instance and [goAdd] a function. *)
Theorem retry_after_failure_succeeds (h1 h2 : Host) (m m1 : Machine) (e : thrown)
    (inst : Instance) (j : nat) :
  initializeWasm h1 m = (Throw e, m1) ->
  steps_succeed h2 m1 inst ->
  Z.of_nat j * checkIntervalMs < timeout ->
  In MainRegisters (background h2 j) ->
  (forall i err, (i <= j)%nat -> ~ In (RunRejected err) (background h2 i)) ->
  exists m2,
    initializeWasm h2 m1 = (Normal tt, m2) /\
    wasmInstance m2 = Some inst /\
    not_ready m2 = false.
Proof.
  intros E S L R Q.
  pose proof (initializeWasm_throws h1 m e m1 E) as W.
  destruct (initializeWasm_resolves h2 m1 inst j W S L R Q) as (m2 & E2 & I & F & _).
  exists m2. repeat split; try assumption.
  apply is_function_spec in F. destruct F as [f F].
  apply not_ready_false. eauto.
Qed.

Lemma retry_after_failure_succeeds_witness :
  exists m2,
    initializeWasm healthy (snd (initializeWasm missing_binary fresh)) = (Normal tt, m2) /\
    wasmInstance m2 = Some (WasmInstance 0) /\
    not_ready m2 = false.
Proof.
  apply (retry_after_failure_succeeds missing_binary healthy fresh
           (snd (initializeWasm missing_binary fresh))
           (ErrorObject "Wasm初期化失敗: ENOENT: no such file or directory")
           (WasmInstance 0) 0).
  - vm_compute. reflexivity.
  - exists "globalThis.Go = class { }", true, (GoRuntimeObject 0), [].
    repeat split.
  - reflexivity.
  - left. reflexivity.
  - intros i err Hi. replace i with 0%nat by lia. cbn. intros [C|[]]. discriminate.
Defined.

(* ===================================================================== *)
(** * Further properties of POST *)
(* ===================================================================== *)

Lemma Forall_effects (P : Event -> Prop) m m' evs :
  trace m' = (trace m ++ evs)%list -> Forall P evs -> Forall P (effects_of m m').
Proof. intros E F. rewrite (effects_of_app m m' evs E). exact F. Qed.

(** The [try] block answers 200, 400 or 503 when it answers. *)
Lemma respond_status request m r m' :
  respond request m = (Normal r, m') ->
  status r = 200 \/ status r = 400 \/ status r = 503.
Proof.
  unfold respond, destructure_a_b, call_goAdd. crunch.
  all: intros E; inversion E; subst; cbn; auto.
Qed.

(** With a responsive host the attempt ends. *)
Lemma initializeWasm_settles h m :
  responsive h -> settles (fst (initializeWasm h m)).
Proof.
  intros (R1 & R2 & R3 & R4 & R5) C.
  destruct (initializeWasm h m) as [r m'] eqn:E. cbn [fst] in C. subst r.
  destruct (initializeWasm_never h m m' E) as (_ & _ & N).
  unfold settles in *.
  destruct (wasmInstance m) as [inst|] eqn:W.
  { rewrite (initializeWasm_warm h m inst W) in E. discriminate. }
  revert E. unfold initializeWasm. run. rewrite W. run. unfold try_catch. run.
  destruct (wasm_exec_js h) as [content|x|]; run; [|discriminate|congruence].
  pose proof (R2 content) as R2'.
  destruct (evaluate h content) as [d|x|]; run; [|discriminate|congruence].
  destruct (Go (g m) || d); run; [|discriminate].
  destruct (new_Go h) as [rt|x|]; run; [|discriminate|congruence].
  destruct (main_go_wasm h) as [bytes|x|]; run; [|discriminate|congruence].
  pose proof (R5 bytes) as R5'.
  destruct (instantiate h bytes) as [inst|x|]; run; [|discriminate|congruence].
  match goal with |- context [bind (wait_for_goAdd h 0%nat 0) ?k ?s] =>
    unfold bind at 1; pose proof (wait_settles h 0 0 s) as HS;
    destruct (wait_for_goAdd h 0 0 s) as [[[]|x|] m1]
  end; cbn [fst] in HS; run; [discriminate|discriminate|congruence].
Qed.

(** Past the readiness check, the handler comes back when the body and
    [goAdd] do. *)
Lemma respond_settles request m :
  settles (json request) ->
  (forall f args, goAdd (g m) = BoundFunction f -> settles (f args)) ->
  settles (fst (respond request m)).
Proof.
  unfold settles. intros J F.
  unfold respond, destructure_a_b, call_goAdd. crunch; try discriminate.
  all: try (exfalso; apply J; first [assumption | reflexivity]).
  all: match goal with
       | C : ?f ?args = Never |- _ =>
         exfalso; apply (F f args); [first [reflexivity | assumption] | exact C]
       end.
Qed.

(** X9.  The handler adds no waiting of its own and lets no exception out.
    If every operation it depends on comes back (the host is responsive,
    [request.json()] settles, and the function found under [goAdd], if there
    is one, returns or throws), then [POST] answers, whatever the state and
    however those operations end, and the status is 200, 400, 500 or 503. *)
Theorem POST_always_answers (h : Host) (request : Request) (m : Machine) :
  responsive h ->
  settles (json request) ->
  (forall f args, goAdd (g m) = BoundFunction f -> settles (f args)) ->
  exists r,
    fst (POST h request m) = Normal r /\
    (status r = 200 \/ status r = 400 \/ status r = 500 \/ status r = 503).
Proof.
  intros H J F.
  assert (F1 : forall m1, snd (ensure_ready h m) = m1 ->
               forall f args, goAdd (g m1) = BoundFunction f -> settles (f args)).
  { intros m1 <- f args. unfold ensure_ready. exec.
    destruct (not_ready m); exec; [|apply F].
    match goal with |- context [initializeWasm h ?s] =>
      destruct (initializeWasm_goAdd h s) as [-> | ->] end.
    - apply F.
    - intros [= <-]. apply FuncOf_settles. }
  assert (S1 : settles (fst (ensure_ready h m))).
  { unfold ensure_ready. exec.
    destruct (not_ready m); exec; [apply initializeWasm_settles; exact H | discriminate]. }
  unfold POST, try_catch, bind.
  destruct (ensure_ready h m) as [[[]|x|] m1]; cbn [fst snd] in *.
  - pose proof (respond_settles request m1 J (F1 m1 eq_refl)) as S2.
    destruct (respond request m1) as [[r|x|] m2] eqn:E; cbn [fst] in S2.
    + exists r. split; [reflexivity|].
      destruct (respond_status request m1 r m2 E) as [S|[S|S]]; auto.
    + destruct (on_error_answers x m2) as (r & A & S). exists r. auto.
    + exfalso. apply S2. reflexivity.
  - destruct (on_error_answers x m1) as (r & A & S). exists r. auto.
  - exfalso. apply S1. reflexivity.
Qed.

Lemma POST_always_answers_witness :
  exists r,
    fst (POST missing_binary garbled (orphaned (FuncOf add))) = Normal r /\
    (status r = 200 \/ status r = 400 \/ status r = 500 \/ status r = 503).
Proof.
  apply (POST_always_answers missing_binary garbled (orphaned (FuncOf add))).
  - repeat split; try intros ?; discriminate.
  - discriminate.
  - intros f args [= <-]. apply FuncOf_settles.
Defined.

(** X19.  Only the readiness wait has a time-out.  If the attempt that the
    handler makes never ends, the request is never answered: the [catch]
    clause has nothing to catch.  The attempt is then stuck in one of the
    operations before the wait (the host is not responsive), no timer
    period has elapsed, and [wasmInstance] is still null. *)
Theorem unsettled_step_hangs_the_request (h : Host) (request : Request)
    (m m' : Machine) :
  ensure_ready h m = (Never, m') ->
  POST h request m = (Never, m') /\
  ~ responsive h /\
  wasmInstance m' = None /\
  waited m' = waited m.
Proof.
  intros E.
  assert (exists s, initializeWasm h s = (Never, m') /\ waited s = waited m)
    as (s & I & Ws).
  { revert E. unfold ensure_ready. exec.
    destruct (not_ready m); [|discriminate].
    intros E. eexists. split; [exact E | reflexivity]. }
  destruct (initializeWasm_never h s m' I) as (Inst & Wt & _).
  split; [unfold POST, try_catch, bind; rewrite E; reflexivity|].
  split; [intros R; apply (initializeWasm_settles h s R); rewrite I; reflexivity|].
  split; [exact Inst | congruence].
Qed.

Lemma unsettled_step_hangs_the_request_witness :
  POST stalled garbled fresh = (Never, snd (ensure_ready stalled fresh)) /\
  ~ responsive stalled /\
  wasmInstance (snd (ensure_ready stalled fresh)) = None /\
  waited (snd (ensure_ready stalled fresh)) = waited fresh.
Proof.
  apply (unsettled_step_hangs_the_request stalled garbled fresh
           (snd (ensure_ready stalled fresh))).
  vm_compute. reflexivity.
Defined.

(** Every exception of [initializeWasm] carries the marker of an
    initialisation failure in front of the message of its cause. *)
Lemma initializeWasm_throw_shape h m e m' :
  initializeWasm h m = (Throw e, m') ->
  exists msg, e = ErrorObject ("Wasm初期化失敗: " ++ msg).
Proof.
  unfold initializeWasm. run.
  destruct (wasmInstance m); run; [discriminate|]. unfold try_catch.
  match goal with |- context [match ?c with _ => _ end] => destruct c as [[[]|x|] m1] end.
  - discriminate.
  - intros [= <- _]. eexists. reflexivity.
  - discriminate.
Qed.

(** X10.  A failure of the initialisation is told apart from other
    failures.  If the attempt the handler makes throws, [POST] answers 500
    with the text for a failed initialisation, and the details are the
    marker followed by the message of the cause. *)
Theorem failed_initialisation_is_answered_500 (h : Host) (request : Request)
    (m m1 : Machine) (e : thrown) :
  ensure_ready h m = (Throw e, m1) ->
  exists msg,
    e = ErrorObject ("Wasm初期化失敗: " ++ msg) /\
    fst (POST h request m)
    = Normal {| status := 500;
                body := Object [("error", String initialisation_failed_text);
                                ("details", String ("Wasm初期化失敗: " ++ msg))] |}.
Proof.
  intros E.
  assert (exists msg, e = ErrorObject ("Wasm初期化失敗: " ++ msg)) as [msg ->].
  { revert E. unfold ensure_ready. exec.
    destruct (not_ready m); [|discriminate].
    match goal with |- context [initializeWasm h ?s] =>
      destruct (initializeWasm h s) as [[[]|x|] m2] eqn:I end; [discriminate| |discriminate].
    intros [= <- _]. eapply initializeWasm_throw_shape. exact I. }
  exists msg. split; [reflexivity|].
  unfold POST, try_catch, bind. rewrite E.
  unfold on_error. exec. reflexivity.
Qed.

Lemma failed_initialisation_is_answered_500_witness :
  exists msg,
    ErrorObject "Wasm初期化失敗: ENOENT: no such file or directory"
    = ErrorObject ("Wasm初期化失敗: " ++ msg) /\
    fst (POST missing_binary garbled fresh)
    = Normal {| status := 500;
                body := Object [("error", String initialisation_failed_text);
                                ("details", String ("Wasm初期化失敗: " ++ msg))] |}.
Proof.
  apply (failed_initialisation_is_answered_500 missing_binary garbled fresh
           (snd (ensure_ready missing_binary fresh))).
  vm_compute. reflexivity.
Defined.

(** X11.  The check of the constructor.  If [Go] is not defined before and
    the bootstrap script, though read and run without exception, does not
    define it, the attempt stops there: the runtime is not constructed, the
    binary is neither read nor instantiated, no timer is started, and
    [POST] answers 500 for a failed initialisation, naming the missing
    constructor in the details. *)
Theorem missing_constructor_stops_the_attempt (h : Host) (request : Request)
    (m : Machine) (content : string) :
  wasmInstance m = None ->
  Go (g m) = false ->
  wasm_exec_js h = Normal content ->
  evaluate h content = Normal false ->
  fst (POST h request m)
  = Normal {| status := 500;
              body := Object
                [("error", String initialisation_failed_text);
                 ("details",
                  String "Wasm初期化失敗: GoコンストラクタがglobalThis上で見つかりません。wasm_exec.jsの実行に失敗した可能性があります。")] |} /\
  effects_of m (snd (POST h request m))
  = [ConsoleLog "Wasmが未初期化または 'goAdd' が利用不可のため、初期化処理を実行します...";
     ConsoleLog "Wasmモジュールを初期化しています...";
     ReadFile "./public/wasm_exec.js";
     RunScript content;
     ConsoleError ["Wasm初期化中のエラー:";
                   "GoコンストラクタがglobalThis上で見つかりません。wasm_exec.jsの実行に失敗した可能性があります。"];
     ConsoleError ["/api/calculate でのエラー:";
                   "Wasm初期化失敗: GoコンストラクタがglobalThis上で見つかりません。wasm_exec.jsの実行に失敗した可能性があります。"]] /\
  wasmInstance (snd (POST h request m)) = None /\
  g (snd (POST h request m)) = g m.
Proof.
  intros W G R V.
  unfold POST, ensure_ready, initializeWasm, on_error, not_ready. exec.
  repeat (first [rewrite W | rewrite R | rewrite V | rewrite G]; exec).
  repeat split.
  - apply effects_of_app. cbn [trace]. rewrite <- !app_assoc. reflexivity.
  - destruct (g m) as [go ga]. cbn in G |- *. rewrite G. reflexivity.
Qed.

Lemma missing_constructor_stops_the_attempt_witness :
  fst (POST {| wasm_exec_js := Normal "/* empty */";
               evaluate := fun _ => Normal false;
               new_Go := Normal (GoRuntimeObject 0);
               main_go_wasm := Normal [];
               instantiate := fun _ => Normal (WasmInstance 0);
               background := fun _ => [] |}
         (payload (Number (of_Z 15)) (Number (of_Z 7))) fresh)
  = Normal {| status := 500;
              body := Object
                [("error", String initialisation_failed_text);
                 ("details",
                  String "Wasm初期化失敗: GoコンストラクタがglobalThis上で見つかりません。wasm_exec.jsの実行に失敗した可能性があります。")] |}.
Proof.
  apply (missing_constructor_stops_the_attempt _ _ fresh "/* empty */");
    reflexivity.
Defined.

(** Serving a request with the module ready leaves the instance and the
    global namespace alone. *)
Lemma ready_request_frame h request m :
  not_ready m = false ->
  wasmInstance (snd (POST h request m)) = wasmInstance m /\
  g (snd (POST h request m)) = g m.
Proof.
  intros R. unfold POST, try_catch, bind. rewrite (ensure_ready_warm h m R).
  unfold respond, on_error, destructure_a_b, call_goAdd. crunch.
  all: split; reflexivity.
Qed.

(** X12.  A request served by a ready module does no initialisation.  If
    [wasmInstance] is not null and [goAdd] is a function when the request
    arrives, the outcome of [POST] does not depend on the host (no file is
    read, no script run, no timer started): its only effects are error
    lines on the console and the call of [goAdd], and it leaves the module
    variables and the global namespace as they were. *)
Theorem ready_request_does_no_initialisation (h h' : Host) (request : Request)
    (m : Machine) :
  not_ready m = false ->
  POST h request m = POST h' request m /\
  Forall serving (effects_of m (snd (POST h request m))) /\
  wasmInstance (snd (POST h request m)) = wasmInstance m /\
  goRuntimeInstance (snd (POST h request m)) = goRuntimeInstance m /\
  g (snd (POST h request m)) = g m /\
  waited (snd (POST h request m)) = waited m.
Proof.
  intros R.
  split.
  { unfold POST, try_catch, bind. rewrite !(ensure_ready_warm _ m R). reflexivity. }
  unfold POST, try_catch, bind. rewrite (ensure_ready_warm h m R).
  unfold respond, on_error, destructure_a_b, call_goAdd. crunch.
  all: split;
    [ eapply Forall_effects;
      [ cbn [trace]; first [ rewrite <- ?app_assoc; reflexivity
                           | symmetry; apply app_nil_r ]
      | repeat constructor ]
    | repeat split ].
Qed.

Lemma ready_request_does_no_initialisation_witness :
  POST missing_binary garbled (ready_with (FuncOf add))
  = POST healthy garbled (ready_with (FuncOf add)).
Proof.
  apply (ready_request_does_no_initialisation missing_binary healthy garbled
           (ready_with (FuncOf add))).
  reflexivity.
Defined.

Lemma typeof_number_inv v : typeof v = "number" -> exists n, v = Number n.
Proof. destruct v; try discriminate. eauto. Qed.

(** X13.  With the Go function behind [goAdd] the validation of the handler
    is enough: for a ready module and a body whose fields [a] and [b] are of
    type number, whatever numbers they are (fractions, NaN, infinities), the
    answer is 200 with a number as the result; the module never sends one
    of its error strings back. *)
Theorem shipped_module_answers_200 (h : Host) (request : Request) (m : Machine)
    (inst : Instance) (fields : list (string * value)) :
  wasmInstance m = Some inst ->
  goAdd (g m) = BoundFunction (FuncOf add) ->
  json request = Normal (Object fields) ->
  typeof (own_property "a" fields) = "number" ->
  typeof (own_property "b" fields) = "number" ->
  exists n,
    fst (POST h request m)
    = Normal {| status := 200; body := Object [("result", Number n)] |}.
Proof.
  intros W G J Ta Tb.
  rewrite (POST_ready_numeric h request m (FuncOf add) fields); auto.
  - destruct (typeof_number_inv _ Ta) as [x ->].
    destruct (typeof_number_inv _ Tb) as [y ->].
    unfold FuncOf. rewrite add_on_numbers. eexists. reflexivity.
  - apply not_ready_false. eauto.
Qed.

Lemma shipped_module_answers_200_witness :
  exists n,
    fst (POST healthy (payload (Number S754_nan) (Number one_and_half))
           (ready_with (FuncOf add)))
    = Normal {| status := 200; body := Object [("result", Number n)] |}.
Proof.
  apply (shipped_module_answers_200 healthy _ (ready_with (FuncOf add)) (WasmInstance 0)
           [("a", Number S754_nan); ("b", Number one_and_half)]);
    reflexivity.
Defined.

(** X14.  Bodies that are no objects.  With the module ready, a body that
    parses to a boolean, a number, a string or an array has no field [a] or
    [b] and is answered 400 with the validation message; the body [null]
    makes the destructuring throw and is answered 500 with the generic
    text.  In neither case is [goAdd] called. *)
Theorem body_without_fields (h : Host) (request : Request) (m : Machine)
    (body : value) :
  not_ready m = false ->
  json request = Normal body ->
  (has_no_fields body = true ->
   fst (POST h request m)
   = Normal {| status := 400; body := Object [("error", String invalid_input_message)] |}) /\
  (body = Null ->
   exists details,
     fst (POST h request m)
     = Normal {| status := 500;
                 body := Object [("error", String internal_error_text);
                                 ("details", String details)] |}) /\
  (has_no_fields body = true \/ body = Null ->
   forall args, ~ In (CallGoAdd args) (effects_of m (snd (POST h request m)))).
Proof.
  intros R J. split; [|split].
  - intros B. unfold POST, try_catch, bind. rewrite (ensure_ready_warm h m R).
    unfold respond, destructure_a_b. exec. rewrite R, J. exec.
    destruct body; try discriminate; reflexivity.
  - intros ->. unfold POST, try_catch, bind. rewrite (ensure_ready_warm h m R).
    unfold respond, destructure_a_b, on_error. exec. rewrite R, J. exec.
    eexists. reflexivity.
  - intros B args I.
    destruct (POST_invokes h request m args I) as (_ & fields & _ & _ & J' & _).
    rewrite J in J'. injection J' as ->.
    destruct B as [B|B]; discriminate.
Qed.

Lemma body_without_fields_witness :
  fst (POST healthy {| json := Normal (Array [Number (of_Z 15); Number (of_Z 7)]) |}
         (ready_with (FuncOf add)))
  = Normal {| status := 400; body := Object [("error", String invalid_input_message)] |}.
Proof.
  apply (body_without_fields healthy _ (ready_with (FuncOf add))
           (Array [Number (of_Z 15); Number (of_Z 7)]));
    reflexivity.
Defined.

(** X15.  An exception of [goAdd].  With the module ready and a body that
    passed the validation, if the call of [goAdd] throws (as a function of
    a Go program that has exited does), [POST] answers 500 with the message
    of the exception as details, and leaves [wasmInstance] and the global
    namespace as they were: the next request finds the module ready again
    and calls the same function. *)
Theorem exception_of_goAdd_is_answered_500 (h : Host) (request : Request)
    (m : Machine) (inst : Instance) (f : function)
    (fields : list (string * value)) (e : thrown) :
  wasmInstance m = Some inst ->
  goAdd (g m) = BoundFunction f ->
  json request = Normal (Object fields) ->
  typeof (own_property "a" fields) = "number" ->
  typeof (own_property "b" fields) = "number" ->
  f [own_property "a" fields; own_property "b" fields] = Throw e ->
  let details := message_or "不明なエラーが発生しました。" e in
  fst (POST h request m)
  = Normal {| status := 500;
              body := Object
                [("error",
                  String (if startsWith details "Wasm初期化失敗:"
                          then initialisation_failed_text
                          else internal_error_text));
                 ("details", String details)] |} /\
  not_ready (snd (POST h request m)) = false /\
  goAdd (g (snd (POST h request m))) = BoundFunction f.
Proof.
  intros W G J Ta Tb T details. subst details.
  assert (R : not_ready m = false) by (apply not_ready_false; eauto).
  destruct (ready_request_frame h request m R) as (I' & G').
  split; [|split].
  - rewrite (POST_ready_numeric h request m f fields); auto.
    rewrite T. unfold on_error. exec. destruct (startsWith _ _); reflexivity.
  - unfold not_ready. rewrite I', G'. exact R.
  - rewrite G'. exact G.
Qed.

Lemma exception_of_goAdd_is_answered_500_witness :
  fst (POST healthy (payload (Number (of_Z 15)) (Number (of_Z 7)))
         (ready_with (fun _ => Throw (ErrorObject "Go program has already exited"))))
  = Normal {| status := 500;
              body := Object [("error", String internal_error_text);
                              ("details", String "Go program has already exited")] |}.
Proof.
  apply (exception_of_goAdd_is_answered_500 healthy _
           (ready_with (fun _ => Throw (ErrorObject "Go program has already exited")))
           (WasmInstance 0) (fun _ => Throw (ErrorObject "Go program has already exited"))
           [("a", Number (of_Z 15)); ("b", Number (of_Z 7))]
           (ErrorObject "Go program has already exited"));
    reflexivity.
Defined.

(** The answer once the attempt has made the module ready, to a body with
    two numbers: as for a request that found the module ready. *)
Lemma POST_after_attempt h request m m1 f fields :
  ensure_ready h m = (Normal tt, m1) ->
  not_ready m1 = false ->
  goAdd (g m1) = BoundFunction f ->
  json request = Normal (Object fields) ->
  typeof (own_property "a" fields) = "number" ->
  typeof (own_property "b" fields) = "number" ->
  forall result,
    f [own_property "a" fields; own_property "b" fields] = Normal (Number result) ->
    fst (POST h request m)
    = Normal {| status := 200; body := Object [("result", Number result)] |} /\
    wasmInstance (snd (POST h request m)) = wasmInstance m1 /\
    g (snd (POST h request m)) = g m1 /\
    waited (snd (POST h request m)) = waited m1.
Proof.
  intros E R G J Ta Tb result F.
  unfold POST, try_catch, bind. rewrite E.
  unfold respond, destructure_a_b, call_goAdd. exec.
  rewrite R, J. exec. rewrite Ta, Tb. exec. rewrite G. exec. rewrite F.
  repeat split.
Qed.

(** X16.  The first request of a process, end to end.  From a state without
    instance and without [goAdd], if every step of the initialisation
    succeeds, the Go program first registers [goAdd] before the firing of
    index [j] (one of the first 100) and [run] has not rejected by then,
    then a body carrying two safe integers with a safe sum is answered 200
    with their sum, after [j + 1] timer periods, and the module is ready
    for the next request. *)
Theorem first_request_is_served (h : Host) (request : Request) (m : Machine)
    (inst : Instance) (j : nat) (fields : list (string * value))
    (a b : Z) (fa fb : number) :
  wasmInstance m = None ->
  steps_succeed h m inst ->
  is_function (goAdd (g m)) = false ->
  Z.of_nat j * checkIntervalMs < timeout ->
  In MainRegisters (background h j) ->
  (forall i, (i < j)%nat -> ~ In MainRegisters (background h i)) ->
  (forall i err, (i <= j)%nat -> ~ In (RunRejected err) (background h i)) ->
  json request = Normal (Object fields) ->
  own_property "a" fields = Number fa ->
  own_property "b" fields = Number fb ->
  is_integer fa a -> is_integer fb b ->
  safe_integer a -> safe_integer b -> safe_integer (a + b) ->
  fst (POST h request m)
  = Normal {| status := 200; body := Object [("result", Number (of_Z (a + b)))] |} /\
  not_ready (snd (POST h request m)) = false /\
  waited (snd (POST h request m)) - waited m = (Z.of_nat j + 1) * checkIntervalMs.
Proof.
  unfold safe_integer.
  intros W S F L Rg N Q J Fa Fb Ia Ib Sa Sb Sab.
  set (m0 := snd (console_log
    "Wasmが未初期化または 'goAdd' が利用不可のため、初期化処理を実行します..." m)).
  destruct (initializeWasm_resolves h m0 inst j W S L Rg Q) as (m1 & E & I & _ & _ & X).
  destruct (X F N) as [T G].
  assert (E' : ensure_ready h m = (Normal tt, m1)).
  { unfold ensure_ready, not_ready. exec. rewrite W. exact E. }
  assert (R : not_ready m1 = false) by (apply not_ready_false; eauto).
  destruct (POST_after_attempt h request m m1 (FuncOf add) fields E' R G J)
    with (result := of_Z (a + b)) as (A & I' & G' & W').
  - rewrite Fa. reflexivity.
  - rewrite Fb. reflexivity.
  - rewrite Fa, Fb. unfold FuncOf.
    rewrite (add_numbers Undefined fa fb a b);
      auto using is_integer_integer_part; try (apply safe_in_int; lia).
    rewrite wrap_in_int by (apply safe_in_int; lia). reflexivity.
  - split; [exact A|]. split.
    + unfold not_ready. rewrite I', G'. exact R.
    + rewrite W'. exact T.
Qed.

Lemma first_request_is_served_witness :
  fst (POST healthy (payload (Number (of_Z 15)) (Number (of_Z 7))) fresh)
  = Normal {| status := 200; body := Object [("result", Number (of_Z (15 + 7)))] |} /\
  not_ready (snd (POST healthy (payload (Number (of_Z 15)) (Number (of_Z 7))) fresh)) = false /\
  waited (snd (POST healthy (payload (Number (of_Z 15)) (Number (of_Z 7))) fresh))
  - waited fresh = (Z.of_nat 0 + 1) * checkIntervalMs.
Proof.
  apply (first_request_is_served healthy _ fresh (WasmInstance 0) 0
           [("a", Number (of_Z 15)); ("b", Number (of_Z 7))] 15 7 (of_Z 15) (of_Z 7)).
  - reflexivity.
  - exists "globalThis.Go = class { }", true, (GoRuntimeObject 0), [].
    repeat split.
  - reflexivity.
  - reflexivity.
  - left. reflexivity.
  - intros i Hi. lia.
  - intros i err Hi. replace i with 0%nat by lia. cbn. intros [C|[]]. discriminate.
  - reflexivity.
  - reflexivity.
  - reflexivity.
  - reflexivity.
  - reflexivity.
  - unfold safe_integer. lia.
  - unfold safe_integer. lia.
  - unfold safe_integer. lia.
Defined.

(** X17.  An instance without [goAdd] is not repaired.  If a request finds
    [wasmInstance] not null but [goAdd] not a function, the handler calls
    [initializeWasm], which skips, and answers 503; nothing is read or
    started and the state is left as it was, so every later request is
    answered the same way for as long as this state lasts. *)
Theorem instance_without_goAdd_is_answered_503 (h : Host) (request : Request)
    (m : Machine) (inst : Instance) :
  wasmInstance m = Some inst ->
  is_function (goAdd (g m)) = false ->
  fst (POST h request m)
  = Normal {| status := 503;
              body := Object [("error", String "Wasmモジュールが利用できません。サーバー管理者にお問い合わせください。")] |} /\
  effects_of m (snd (POST h request m))
  = [ConsoleLog "Wasmが未初期化または 'goAdd' が利用不可のため、初期化処理を実行します...";
     ConsoleLog "Wasmは既に初期化されています。スキップします。";
     ConsoleError ["Wasmモジュールの準備ができていないか、'goAdd'関数が見つかりません（初期化試行後）。"]] /\
  wasmInstance (snd (POST h request m)) = Some inst /\
  g (snd (POST h request m)) = g m /\
  goRuntimeInstance (snd (POST h request m)) = goRuntimeInstance m /\
  waited (snd (POST h request m)) = waited m.
Proof.
  unfold is_function. intros W F.
  unfold POST, ensure_ready, initializeWasm, respond, not_ready. exec.
  repeat (first [rewrite W | rewrite F]; exec).
  repeat split.
  apply effects_of_app. cbn [trace]. rewrite <- !app_assoc. reflexivity.
Qed.

Lemma instance_without_goAdd_is_answered_503_witness :
  fst (POST healthy garbled
         {| goRuntimeInstance := Some (GoRuntimeObject 0);
            wasmInstance := Some (WasmInstance 0);
            g := {| Go := true; goAdd := Unbound |};
            waited := 0; trace := [] |})
  = Normal {| status := 503;
              body := Object [("error", String "Wasmモジュールが利用できません。サーバー管理者にお問い合わせください。")] |}.
Proof.
  apply (instance_without_goAdd_is_answered_503 healthy garbled _ (WasmInstance 0));
    reflexivity.
Defined.

(* ===================================================================== *)
(** * The sum of the module and the sum of JavaScript *)
(* ===================================================================== *)

Lemma iter_pos_iter {A} (f : A -> A) n x : iter_pos f n x = Pos.iter f x n.
Proof.
  revert x. induction n as [n IH|n IH|]; intros x; cbn.
  - rewrite !IH, !Pos.iter_swap. reflexivity.
  - rewrite !IH. reflexivity.
  - reflexivity.
Qed.

(** Shifting out zeros is exact. *)
Lemma shr_trailing_zeros q n :
  iter_pos shr_1 n {| shr_m := Zpos (Pos.iter xO q n); shr_r := false; shr_s := false |}
  = {| shr_m := Zpos q; shr_r := false; shr_s := false |}.
Proof.
  rewrite iter_pos_iter.
  induction n using Pos.peano_ind.
  - reflexivity.
  - rewrite Pos.iter_succ_r. rewrite Pos.iter_succ. cbn [shr_1 orb]. exact IHn.
Qed.

Lemma iter_xO_add p a b :
  Pos.iter xO p (a + b) = Pos.iter xO (Pos.iter xO p a) b.
Proof. rewrite Pos.add_comm. apply Pos.iter_add. Qed.

Lemma scale_spec p n : 0 <= n -> Zpos (scale p n) = Zpos p * 2 ^ n.
Proof.
  destruct n as [|n|n]; cbn [scale]; intros H; [lia | apply iter_xO_mul | lia].
Qed.

Lemma size_scale p n : 0 <= n -> Zpos (Pos.size (scale p n)) = Zpos (Pos.size p) + n.
Proof.
  destruct n as [|n|n]; cbn [scale]; intros H; [lia | rewrite size_iter_xO; lia | lia].
Qed.

Lemma scale_scale p a b : 0 <= a -> 0 <= b -> scale (scale p a) b = scale p (a + b).
Proof.
  intros Ha Hb. apply Pos2Z.inj.
  rewrite !scale_spec, Z.pow_add_r by lia. lia.
Qed.

Lemma shr_scale q n e :
  0 < n ->
  shr {| shr_m := Zpos (scale q n); shr_r := false; shr_s := false |} e n
  = ({| shr_m := Zpos q; shr_r := false; shr_s := false |}, e + n).
Proof.
  destruct n as [|n|n]; intros H; try lia.
  cbn [shr scale]. rewrite shr_trailing_zeros. reflexivity.
Qed.

(** The number with mantissa [p * 2^k] and exponent [-k], for [p] below
    [2^53] and any [k]: the mantissa is brought to 53 digits, exactly. *)
Lemma binary_round_scaled s p k :
  0 <= k -> Zpos p < 2 ^ 53 ->
  binary_round prec emax s (scale p k) (- k)
  = S754_finite s (scale p (53 - Zpos (Pos.size p))) (Zpos (Pos.size p) - 53).
Proof.
  intros Hk Hp.
  pose proof (size_bound p 53 ltac:(lia) Hp) as Hd.
  set (d := Zpos (Pos.size p)) in *.
  assert (Hd1 : 1 <= d) by (subst d; lia).
  unfold binary_round, shl_align, fexp, emin, prec, emax.
  rewrite digits2_pos_size, size_scale by assumption. fold d.
  replace (Z.max (d + k + - k - 53) (3 - 1024 - 53)) with (d - 53) by lia.
  destruct (d - 53 - - k) as [|u|u] eqn:U.
  - (* the mantissa has its 53 digits *)
    change (binary_round_aux 53 1024) with (binary_round_aux prec emax).
    rewrite binary_round_aux_canonical.
    + f_equal; [f_equal|]; lia.
    + rewrite size_scale by assumption. fold d. lia.
    + lia.
  - (* too many digits: zeros are shifted out *)
    unfold binary_round_aux, shr_fexp, Zdigits2, fexp, emin, shr_record_of_loc.
    rewrite digits2_pos_size, size_scale by assumption. fold d.
    replace (Z.max (d + k + - k - 53) (3 - 1024 - 53) - - k) with (Zpos u) by lia.
    replace (scale p k) with (scale (scale p (53 - d)) (Zpos u))
      by (rewrite scale_scale by lia; f_equal; lia).
    rewrite shr_scale by lia.
    cbn [shr_m loc_of_shr_record shr_r shr_s round_nearest_even Zdigits2].
    rewrite digits2_pos_size, size_scale by lia. fold d.
    replace (Z.max (d + (53 - d) + (- k + Zpos u) - 53) (3 - 1024 - 53) - (- k + Zpos u))
      with 0 by lia.
    cbn [shr shr_m].
    destruct (Z.leb_spec (- k + Zpos u) (1024 - 53)); [|lia].
    f_equal. lia.
  - (* too few digits: the mantissa is shifted left *)
    change (binary_round_aux 53 1024) with (binary_round_aux prec emax).
    change (Pos.iter xO (scale p k) u) with (scale (scale p k) (Zpos u)).
    rewrite scale_scale by lia.
    rewrite binary_round_aux_canonical.
    + f_equal. f_equal. lia.
    + rewrite size_scale by lia. fold d. lia.
    + lia.
Qed.

Lemma binary_round_unscaled s p :
  Zpos p < 2 ^ 53 ->
  binary_round prec emax s p 0
  = S754_finite s (scale p (53 - Zpos (Pos.size p))) (Zpos (Pos.size p) - 53).
Proof. intros Hp. exact (binary_round_scaled s p 0 (Z.le_refl 0) Hp). Qed.

(** Normalising [z * 2^k] with exponent [-k] gives the number [z]. *)
Lemma binary_normalize_scaled z k :
  0 <= k -> - 2 ^ 53 < z < 2 ^ 53 ->
  binary_normalize prec emax (z * 2 ^ k) (- k) false = of_Z z.
Proof.
  intros Hk Hz. unfold of_Z.
  destruct z as [|p|p].
  - reflexivity.
  - rewrite <- (scale_spec p k Hk). cbn [binary_normalize].
    rewrite (binary_round_scaled false p k Hk), (binary_round_unscaled false p) by lia.
    reflexivity.
  - replace (Z.neg p * 2 ^ k) with (Z.neg (scale p k))
      by (rewrite <- !Pos2Z.opp_pos, scale_spec by assumption; lia).
    cbn [binary_normalize].
    rewrite (binary_round_scaled true p k Hk), (binary_round_unscaled true p) by lia.
    reflexivity.
Qed.

(** A safe integer other than 0, as a number. *)
Lemma of_Z_finite z :
  z <> 0 -> - 2 ^ 53 < z < 2 ^ 53 ->
  exists s m k, 0 <= k /\ of_Z z = S754_finite s m (- k) /\
                cond_Zopp s (Zpos m) = z * 2 ^ k.
Proof.
  intros Hz Hr. unfold of_Z, binary_normalize.
  destruct z as [|p|p]; [contradiction| |].
  - destruct (binary_round_small false p) as (mz & k & Hk & Hm & E); [lia|].
    exists false, mz, k. auto.
  - destruct (binary_round_small true p) as (mz & k & Hk & Hm & E); [lia|].
    exists true, mz, k. split; [exact Hk|]. split; [exact E|].
    cbn [cond_Zopp]. lia.
Qed.

Lemma shl_align_fst m ex ex' :
  ex' <= ex -> Zpos (fst (shl_align m ex ex')) = Zpos m * 2 ^ (ex - ex').
Proof.
  intros H. unfold shl_align.
  destruct (ex' - ex) as [|d|d] eqn:D; cbn [fst].
  - replace (ex - ex') with 0 by lia. lia.
  - lia.
  - rewrite iter_xO_mul. f_equal. f_equal. lia.
Qed.

(** On safe integers with a safe sum the addition of numbers is the
    addition of integers. *)
Lemma plus_of_Z a b :
  - 2 ^ 53 < a < 2 ^ 53 -> - 2 ^ 53 < b < 2 ^ 53 -> - 2 ^ 53 < a + b < 2 ^ 53 ->
  plus (of_Z a) (of_Z b) = of_Z (a + b).
Proof.
  intros Ha Hb Hab.
  destruct (Z.eq_dec a 0) as [->|Na].
  { destruct (Z.eq_dec b 0) as [->|Nb]; [reflexivity|].
    destruct (of_Z_finite b Nb Hb) as (s & m & k & _ & E & _).
    rewrite Z.add_0_l, E. reflexivity. }
  destruct (Z.eq_dec b 0) as [->|Nb].
  { destruct (of_Z_finite a Na Ha) as (s & m & k & _ & E & _).
    rewrite Z.add_0_r, E. reflexivity. }
  destruct (of_Z_finite a Na Ha) as (sa & ma & ka & Hka & Ea & Va).
  destruct (of_Z_finite b Nb Hb) as (sb & mb & kb & Hkb & Eb & Vb).
  rewrite Ea, Eb. unfold plus. cbn [SFadd].
  set (K := Z.max ka kb).
  replace (Z.min (- ka) (- kb)) with (- K) by (subst K; lia).
  fold prec emax.
  replace (cond_Zopp sa (Zpos (fst (shl_align ma (- ka) (- K))))
           + cond_Zopp sb (Zpos (fst (shl_align mb (- kb) (- K)))))
    with ((a + b) * 2 ^ K).
  - apply binary_normalize_scaled; [subst K; lia | exact Hab].
  - rewrite !shl_align_fst by (subst K; lia).
    rewrite <- !cond_Zopp_mul, Va, Vb.
    rewrite <- !Z.mul_assoc, <- !Z.pow_add_r by (subst K; lia).
    replace (ka + (- ka - - K)) with K by lia.
    replace (kb + (- kb - - K)) with K by lia.
    lia.
Qed.

(** X18.  On safe integers the module computes the sum of JavaScript: for
    integers [a] and [b] that are safe together with their sum,
    [goAdd(a, b)] returns the very number that [a + b] evaluates to. *)
Theorem add_is_the_sum_of_JavaScript (this : value) (a b : Z) :
  safe_integer a -> safe_integer b -> safe_integer (a + b) ->
  add this [Number (of_Z a); Number (of_Z b)]
  = Done (Number (plus (of_Z a) (of_Z b))).
Proof.
  unfold safe_integer. intros Sa Sb Sab.
  rewrite plus_of_Z by lia.
  rewrite (add_numbers this (of_Z a) (of_Z b) a b).
  - rewrite wrap_in_int by (apply safe_in_int; lia). reflexivity.
  - apply is_integer_integer_part, of_Z_is_integer. lia.
  - apply is_integer_integer_part, of_Z_is_integer. lia.
  - apply safe_in_int. lia.
  - apply safe_in_int. lia.
Qed.

Lemma add_is_the_sum_of_JavaScript_witness :
  add Undefined [Number (of_Z 9007199254740990); Number (of_Z (-9007199254740991))]
  = Done (Number (plus (of_Z 9007199254740990) (of_Z (-9007199254740991)))).
Proof.
  apply (add_is_the_sum_of_JavaScript Undefined 9007199254740990 (-9007199254740991));
    unfold safe_integer; lia.
Defined.
